(** * GeoScoreTool: the scoring component of geoscore-frontend

    A shallow embedding of the React component [GeoScoreTool]: its two
    identity helpers ([extractBrandName], [fetchLogo]), the asynchronous
    [calculateScore] with its local fallback [calculateLocalScore], the two
    signal checks and [resetScore].

    Conventions.
    - JavaScript strings are [string]s; every string operation used by the
      component ([replace], [split], [includes], [===]) acts on code units
      and is modelled on the characters of the [string].
    - The platform's [URL] constructor and [String.prototype.toLowerCase]
      are parameters of the development: the component only calls them.
    - Asynchronous functions are programs of the type [prog]: a tree of
      state updates, random draws and suspension points, run against a
      [World] that answers the network requests and the random draws.
    - A function of the component is closed over the state of the render
      that created it: it reads that state, while its setters act on the
      state current when they run.  React renders again between two
      events, so a handler reads the state left by the previous event. *)

From Stdlib Require Import String Ascii List ZArith Lia Bool Arith.
From Stdlib Require Import DecimalString.
Import ListNotations.

Open Scope string_scope.
Open Scope Z_scope.

(** ** JavaScript strings *)

Module JsString.

(** [s.startsWith(p)] *)
Fixpoint startsWith (p s : string) : bool :=
  match p, s with
  | EmptyString, _ => true
  | String a p', String b s' => Ascii.eqb a b && startsWith p' s'
  | String _ _, EmptyString => false
  end.

(** The suffix of [s] after its first [n] characters. *)
Fixpoint drop (n : nat) (s : string) : string :=
  match n, s with
  | O, _ => s
  | S n', String _ s' => drop n' s'
  | S _, EmptyString => EmptyString
  end.

(** [s.replace(pat, rep)] with a string pattern: only the first occurrence
    of [pat], wherever it is, is replaced.  ([rep] holds no [$] here.) *)
Fixpoint replace (pat rep s : string) : string :=
  if startsWith pat s then rep ++ drop (String.length pat) s
  else match s with
       | EmptyString => EmptyString
       | String c s' => String c (replace pat rep s')
       end.

(** [s.includes(sub)] *)
Fixpoint includes (sub s : string) : bool :=
  if startsWith sub s then true
  else match s with
       | EmptyString => false
       | String _ s' => includes sub s'
       end.

(** [s.split(sep)] for a one-character separator: the pieces between the
    separators, in order; never an empty array. *)
Fixpoint split (sep : ascii) (s : string) : list string :=
  match s with
  | EmptyString => [EmptyString]
  | String c s' =>
      if Ascii.eqb c sep then EmptyString :: split sep s'
      else match split sep s' with
           | piece :: pieces => String c piece :: pieces
           | [] => [String c EmptyString]
           end
  end.

(** ASCII lower-casing, the restriction of [toLowerCase] to ASCII text. *)
Definition lower_ascii (c : ascii) : ascii :=
  let n := nat_of_ascii c in
  if (Nat.leb 65 n && Nat.leb n 90)%bool then ascii_of_nat (n + 32) else c.

Fixpoint lower (s : string) : string :=
  match s with
  | EmptyString => EmptyString
  | String c s' => String (lower_ascii c) (lower s')
  end.

(** The part of [s] before its first [c]; all of [s] when it has none. *)
Fixpoint before_first (c : ascii) (s : string) : string :=
  match s with
  | EmptyString => EmptyString
  | String a s' => if Ascii.eqb a c then EmptyString else String a (before_first c s')
  end.

(** [c] occurs in [s]. *)
Fixpoint mem (c : ascii) (s : string) : bool :=
  match s with
  | EmptyString => false
  | String a s' => Ascii.eqb a c || mem c s'
  end.

End JsString.

(** ** JavaScript values

    The values that flow through the component: parsed JSON bodies, the
    score object and [undefined].  [VNum n] is the integral number [n];
    every number the component computes is a small integer.  Numbers of
    magnitude [10^21] and more, which [ToString] prints in exponent
    notation, are outside the model: [to_string] prints plain digits.
    The properties of a [VObj] are listed in the order [Object.keys]
    enumerates them. *)

#[warnings="-register-all"]
Inductive value : Type :=
| VUndefined
| VNull
| VBool (b : bool)
| VNum (n : Z)
| VStr (s : string)
| VArr (items : list value)
| VObj (props : list (string * value)).

(** Thrown values: every exception the component can see is an [Error]
    object, of which only [message] is read. *)
Inductive exn : Type :=
| Error (message : string).

Definition message (e : exn) : string :=
  match e with Error m => m end.

(** The completion of an evaluation: a normal result or a thrown error. *)
Inductive completion (A : Type) : Type :=
| Return (a : A)
| Throw (e : exn).

Arguments Return {A} a.
Arguments Throw {A} e.

Module Js.

(** [ToBoolean] *)
Definition truthy (v : value) : bool :=
  match v with
  | VUndefined | VNull => false
  | VBool b => b
  | VNum n => negb (n =? 0)
  | VStr s => negb (String.eqb s "")
  | VArr _ | VObj _ => true
  end.

(** [a || b] *)
Definition or_else (a b : value) : value :=
  if truthy a then a else b.

Definition string_of_Z (n : Z) : string :=
  NilZero.string_of_int (Z.to_int n).

Definition string_of_nat (n : nat) : string :=
  NilZero.string_of_uint (Nat.to_uint n).

(** [ToString], for numbers below [10^21] in magnitude *)
Fixpoint to_string (v : value) : string :=
  match v with
  | VUndefined => "undefined"
  | VNull => "null"
  | VBool true => "true"
  | VBool false => "false"
  | VNum n => string_of_Z n
  | VStr s => s
  | VArr items =>
      let element v :=
        match v with VUndefined | VNull => "" | _ => to_string v end in
      String.concat "," (map element items)
  | VObj _ => "[object Object]"
  end.

(** Own property lookup in a property list. *)
Fixpoint lookup (key : string) (props : list (string * value)) : value :=
  match props with
  | [] => VUndefined
  | (k, v) :: rest => if String.eqb k key then v else lookup key rest
  end.

Section PropertyAccess.

(** The message of the [TypeError] the engine throws when a property of
    [null] or [undefined] is read; it depends on the engine. *)
Variable null_access_message : string -> string.

(** [v.key], for the property names the component reads ([detail],
    [query], [pages]): none of them lives on a prototype, so primitives
    and arrays answer [undefined]. *)
Definition get (v : value) (key : string) : completion value :=
  match v with
  | VUndefined | VNull => Throw (Error (null_access_message key))
  | VObj props => Return (lookup key props)
  | VBool _ | VNum _ | VStr _ | VArr _ => Return VUndefined
  end.

End PropertyAccess.

(** [v.key] on a value known to be an object; [undefined] elsewhere. *)
Definition member (v : value) (key : string) : value :=
  match v with
  | VObj props => lookup key props
  | _ => VUndefined
  end.

(** [Object.keys(v)] for a value that is neither [null] nor [undefined]. *)
Definition keys (v : value) : list string :=
  match v with
  | VObj props => map fst props
  | VArr items => map string_of_nat (seq 0 (List.length items))
  | VStr s => map string_of_nat (seq 0 (String.length s))
  | _ => []
  end.

(** [a[i]] on an array of strings: [undefined] out of range. *)
Definition index (a : list string) (i : nat) : value :=
  match nth_error a i with
  | Some s => VStr s
  | None => VUndefined
  end.

(** [v === s] for a string [s] *)
Definition strict_eq_string (v : value) (s : string) : bool :=
  match v with
  | VStr t => String.eqb t s
  | _ => false
  end.

(** [new Error(v)] *)
Definition new_Error (v : value) : exn :=
  match v with
  | VUndefined => Error ""
  | _ => Error (to_string v)
  end.

End Js.

(** ** [Math.random], [Math.floor]

    [Math.random()] answers a double in [[0, 1)].  Every such double is
    [mantissa * 2^(-exponent)] with a mantissa of at most 53 bits and
    [53 <= exponent <= 1074]. *)

Record unit_double : Type := {
  mantissa : Z;
  exponent : Z
}.

Module Float.

Definition valid (d : unit_double) : Prop :=
  0 <= mantissa d < 2 ^ 53 /\ 53 <= exponent d <= 1074.

Definition validb (d : unit_double) : bool :=
  (0 <=? mantissa d) && (mantissa d <? 2 ^ 53) &&
  (53 <=? exponent d) && (exponent d <=? 1074).

(** Rounding of a non-negative integer to 53 significant bits, to nearest,
    ties to even: the rounding of every double operation. *)
Definition round53 (x : Z) : Z :=
  if x <? 2 ^ 53 then x
  else
    let k := Z.log2 x - 52 in
    let q := x / 2 ^ k in
    let r := x mod 2 ^ k in
    let h := 2 ^ (k - 1) in
    let q' := if (h <? r) || ((r =? h) && Z.odd q) then q + 1 else q in
    q' * 2 ^ k.

(** [Math.floor(d * n)] for a small positive integer [n]: the product is
    rounded to a double, then floored. *)
Definition floor_times (d : unit_double) (n : Z) : Z :=
  round53 (mantissa d * n) / 2 ^ exponent d.

End Float.

(** ** Component state

    The six [useState] cells of [GeoScoreTool] and their setters. *)

Record State : Type := {
  url : string;
  scoreData : value;
  logoUrl : string;
  isCalculating : bool;
  lastCalculatedUrl : string;
  error : string
}.

Definition initial : State :=
  {| url := ""; scoreData := VNull; logoUrl := ""; isCalculating := false;
     lastCalculatedUrl := ""; error := "" |}.

Inductive update : Type :=
| SetUrl (s : string)
| SetScoreData (v : value)
| SetLogoUrl (s : string)
| SetIsCalculating (b : bool)
| SetLastCalculatedUrl (s : string)
| SetError (s : string).

Definition apply (u : update) (st : State) : State :=
  match u with
  | SetUrl s =>
      {| url := s; scoreData := scoreData st; logoUrl := logoUrl st;
         isCalculating := isCalculating st;
         lastCalculatedUrl := lastCalculatedUrl st; error := error st |}
  | SetScoreData v =>
      {| url := url st; scoreData := v; logoUrl := logoUrl st;
         isCalculating := isCalculating st;
         lastCalculatedUrl := lastCalculatedUrl st; error := error st |}
  | SetLogoUrl s =>
      {| url := url st; scoreData := scoreData st; logoUrl := s;
         isCalculating := isCalculating st;
         lastCalculatedUrl := lastCalculatedUrl st; error := error st |}
  | SetIsCalculating b =>
      {| url := url st; scoreData := scoreData st; logoUrl := logoUrl st;
         isCalculating := b;
         lastCalculatedUrl := lastCalculatedUrl st; error := error st |}
  | SetLastCalculatedUrl s =>
      {| url := url st; scoreData := scoreData st; logoUrl := logoUrl st;
         isCalculating := isCalculating st;
         lastCalculatedUrl := s; error := error st |}
  | SetError s =>
      {| url := url st; scoreData := scoreData st; logoUrl := logoUrl st;
         isCalculating := isCalculating st;
         lastCalculatedUrl := lastCalculatedUrl st; error := s |}
  end.

(** ** The outside world *)

(** A call of [fetch]; [body] is the object given to [JSON.stringify],
    [VUndefined] for a request without a body. *)
Record request : Type := {
  target : string;
  method : string;
  body : value
}.

(** A response: its [ok] flag and what awaiting [json()] and [text()]
    settles to. *)
Record response : Type := {
  ok : bool;
  json : completion value;
  text : completion string
}.

(** The world answers the [n]-th request of a run and the [n]-th call of
    [Math.random]; a rejected [fetch] is a [Throw]. *)
Record World : Type := {
  network : nat -> request -> completion response;
  entropy : nat -> unit_double
}.

(** ** Asynchronous programs

    The body of a function of the component, as the tree of what it does:
    - [Done c]: it completes with [c], a result or a thrown error;
    - [Update u k]: it calls a setter, then goes on as [k];
    - [Random k]: it calls [Math.random()] and goes on with the draw;
    - [Console e k]: it writes [e] with [console.error];
    - [Fetch r k]: it calls [fetch(r)] and awaits the answer, a response
      or a rejection;
    - [Await k]: it awaits a promise, such as [response.json()], and is
      resumed later as [k]. *)

Inductive prog (A : Type) : Type :=
| Done (c : completion A)
| Update (u : update) (k : prog A)
| Random (k : unit_double -> prog A)
| Console (e : exn) (k : prog A)
| Fetch (r : request) (k : completion response -> prog A)
| Await (k : prog A).

Arguments Done {A} c.
Arguments Update {A} u k.
Arguments Random {A} k.
Arguments Console {A} e k.
Arguments Fetch {A} r k.
Arguments Await {A} k.

Module Async.

Definition ret {A} (a : A) : prog A := Done (Return a).

Definition throw {A} (e : exn) : prog A := Done (Throw e).

(** A synchronous evaluation inside an asynchronous function. *)
Definition lift {A} (c : completion A) : prog A := Done c.

Fixpoint bind {A B} (p : prog A) (f : A -> prog B) : prog B :=
  match p with
  | Done (Return a) => f a
  | Done (Throw e) => Done (Throw e)
  | Update u k => Update u (bind k f)
  | Random k => Random (fun d => bind (k d) f)
  | Console e k => Console e (bind k f)
  | Fetch r k => Fetch r (fun a => bind (k a) f)
  | Await k => Await (bind k f)
  end.

(** [try { p } catch (err) { handler err }] *)
Fixpoint try_catch {A} (p : prog A) (handler : exn -> prog A) : prog A :=
  match p with
  | Done (Return a) => Done (Return a)
  | Done (Throw e) => handler e
  | Update u k => Update u (try_catch k handler)
  | Random k => Random (fun d => try_catch (k d) handler)
  | Console e k => Console e (try_catch k handler)
  | Fetch r k => Fetch r (fun a => try_catch (k a) handler)
  | Await k => Await (try_catch k handler)
  end.

(** [try { p } finally { cleanup }]: the completion of [p] is kept unless
    [cleanup] itself throws. *)
Fixpoint finally {A} (p : prog A) (cleanup : prog unit) : prog A :=
  match p with
  | Done c => bind cleanup (fun _ => Done c)
  | Update u k => Update u (finally k cleanup)
  | Random k => Random (fun d => finally (k d) cleanup)
  | Console e k => Console e (finally k cleanup)
  | Fetch r k => Fetch r (fun a => finally (k a) cleanup)
  | Await k => Await (finally k cleanup)
  end.

Definition set (u : update) : prog unit := Update u (ret tt).

Definition Math_random : prog unit_double := Random ret.

Definition console_error (e : exn) : prog unit := Console e (ret tt).

(** [await fetch(r)] *)
Definition fetch (r : request) : prog response := Fetch r lift.

(** [await promise] for a promise that settles to [c], such as
    [response.json()]: the function is suspended, then resumed with [c]. *)
Definition await {A} (c : completion A) : prog A := Await (lift c).

(** What a run has done so far: the component state, the number of random
    draws, the requests sent and the errors written to the console. *)
Record Trace : Type := {
  component : State;
  draws : nat;
  sent : list request;
  console : list exn
}.

Definition start (st : State) : Trace :=
  {| component := st; draws := 0%nat; sent := []; console := [] |}.

(** The four things a program does to a trace. *)
Definition updated (u : update) (t : Trace) : Trace :=
  {| component := apply u (component t); draws := draws t;
     sent := sent t; console := console t |}.

Definition drawn (t : Trace) : Trace :=
  {| component := component t; draws := S (draws t);
     sent := sent t; console := console t |}.

Definition logged (e : exn) (t : Trace) : Trace :=
  {| component := component t; draws := draws t;
     sent := sent t; console := console t ++ [e] |}.

Definition requested (r : request) (t : Trace) : Trace :=
  {| component := component t; draws := draws t;
     sent := sent t ++ [r]; console := console t |}.

(** Running a program to its end, every suspension resumed at once with the
    world's answer and no other event in between. *)
Fixpoint run {A} (w : World) (p : prog A) (t : Trace) : Trace * completion A :=
  match p with
  | Done c => (t, c)
  | Update u k => run w k (updated u t)
  | Random k => run w (k (entropy w (draws t))) (drawn t)
  | Console e k => run w k (logged e t)
  | Fetch r k => run w (k (network w (List.length (sent t)) r)) (requested r t)
  | Await k => run w k t
  end.

(** Where a program stands when it gives control back to the event loop:
    finished, waiting for the answer to its [n]-th request, or waiting for
    a promise. *)
Inductive pending (A : Type) : Type :=
| Finished (c : completion A)
| OnFetch (n : nat) (r : request) (k : completion response -> prog A)
| OnPromise (k : prog A).

Arguments Finished {A} c.
Arguments OnFetch {A} n r k.
Arguments OnPromise {A} k.

(** Running a program up to its next suspension: the synchronous part of a
    call, or of a resumption.  The request of a [fetch] leaves before the
    function is suspended. *)
Fixpoint advance {A} (w : World) (p : prog A) (t : Trace) : Trace * pending A :=
  match p with
  | Done c => (t, Finished c)
  | Update u k => advance w k (updated u t)
  | Random k => advance w (k (entropy w (draws t))) (drawn t)
  | Console e k => advance w k (logged e t)
  | Fetch r k => (requested r t, OnFetch (List.length (sent t)) r k)
  | Await k => (t, OnPromise k)
  end.

(** Resuming a suspended program with the world's answer. *)
Definition resume {A} (w : World) (p : pending A) (t : Trace) : Trace * pending A :=
  match p with
  | Finished c => (t, Finished c)
  | OnFetch n r k => advance w (k (network w n r)) t
  | OnPromise k => advance w k t
  end.

End Async.

Declare Scope prog_scope.
Delimit Scope prog_scope with prog.
Bind Scope prog_scope with prog.

Notation "x <- p ;; q" := (Async.bind p (fun x => q))
  (at level 61, p at next level, right associativity) : prog_scope.
Notation "p ;; q" := (Async.bind p (fun _ => q))
  (at level 61, right associativity) : prog_scope.

(** ** The component *)

Module GeoScoreTool.

Import JsString Js Async.

Section Component.

(** [new URL(input).hostname]: the hostname, or the [TypeError] of the
    constructor on an input that does not parse. *)
Variable URL_hostname : string -> completion string.

(** [input.toLowerCase()] *)
Variable toLowerCase : string -> string.

Variable null_access_message : string -> string.

(** [try { c } catch { handler }] for synchronous code. *)
Definition catch {A} (c : completion A) (handler : exn -> completion A) : completion A :=
  match c with
  | Return a => Return a
  | Throw e => handler e
  end.

Definition extractBrandName (inputUrl : string) : completion value :=
  catch
    match URL_hostname inputUrl with
    | Return urlObj_hostname =>
        let hostname := replace "www." "" urlObj_hostname in
        let parts := split "." hostname in
        Return (if (2 <=? List.length parts)%nat then index parts 0
                else VStr hostname)
    | Throw e => Throw e
    end
    (fun _ => Return (index (split "." (toLowerCase inputUrl)) 0)).

Definition fetchLogo (inputUrl : string) : completion string :=
  catch
    match URL_hostname inputUrl with
    | Return domain =>
        Return ("https://www.google.com/s2/favicons?sz=128&domain=" ++ domain)
    | Throw e => Throw e
    end
    (fun _ => Return "").

(** The three requests of the component. *)
Definition score_request (brand_name : value) (url : string) : request :=
  {| target := "/api/check-score"; method := "POST";
     body := VObj [ ("brand_name", brand_name); ("url", VStr url) ] |}.

Definition wikipedia_request (brand : value) : request :=
  {| target := "https://en.wikipedia.org/w/api.php?action=query&format=json&origin=*&titles="
               ++ to_string brand;
     method := "GET"; body := VUndefined |}.

Definition markup_request (inputUrl : string) : request :=
  {| target := "https://cors-anywhere.herokuapp.com/" ++ inputUrl;
     method := "GET"; body := VUndefined |}.

Definition checkWikipedia (brand : value) : prog Z :=
  try_catch
    (response <- fetch (wikipedia_request brand) ;;
     data <- await (json response) ;;
     query <- lift (get null_access_message data "query") ;;
     pages <- lift (get null_access_message query "pages") ;;
     ret (if negb (truthy pages)
             || strict_eq_string (index (keys pages) 0) "-1"
          then 0 else 20))%prog
    (fun _ => ret 0).

Definition checkSchemaMarkup (inputUrl : string) : prog Z :=
  try_catch
    (res <- fetch (markup_request inputUrl) ;;
     text <- await (text res) ;;
     ret (if includes "schema.org" text then 5 else 0))%prog
    (fun _ => ret 0).

(** The object handed to [setScoreData] by the fallback. *)
Definition localScore (brand : value) (recall wiki seo platforms total : Z) : value :=
  VObj [ ("brand", brand);
         ("recall", VNum recall);
         ("wiki", VNum wiki);
         ("seo", VNum seo);
         ("platforms", VNum platforms);
         ("total", VNum total);
         ("breakdown", VObj [ ("recall", VNum recall);
                              ("wiki", VNum wiki);
                              ("seo", VNum seo);
                              ("platforms", VNum platforms) ]);
         ("suggestions", VArr []);
         ("history_links", VArr []) ].

(** [calculateLocalScore], closed over the [url] of the render that
    created it. *)
Definition calculateLocalScore (url : string) : prog unit :=
  (brand <- lift (extractBrandName url) ;;
   logo <- lift (fetchLogo url) ;;
   set (SetLogoUrl logo) ;;
   r <- Math_random ;;
   let recall := Float.floor_times r 25 + 10 in
   wiki <- checkWikipedia brand ;;
   schemaScore <- checkSchemaMarkup url ;;
   r <- Math_random ;;
   let seo := Float.floor_times r 10 + 10 in
   r <- Math_random ;;
   let platforms := Z.min 15 (Float.floor_times r 5 + 5 + schemaScore) in
   let total := recall + wiki + seo + platforms in
   set (SetScoreData (localScore brand recall wiki seo platforms total)))%prog.

(** The [try] block of [calculateScore]. *)
Definition calculateScore_try (c : State) : prog unit :=
  (brand_name <- lift (extractBrandName (url c)) ;;
   response <- fetch (score_request brand_name (url c)) ;;
   if negb (ok response) then
     errorData <- await (json response) ;;
     detail <- lift (get null_access_message errorData "detail") ;;
     throw (new_Error (or_else detail (VStr "Failed to calculate score")))
   else
     data <- await (json response) ;;
     set (SetScoreData data) ;;
     logo <- lift (fetchLogo (url c)) ;;
     set (SetLogoUrl logo))%prog.

(** Its [catch] block. *)
Definition calculateScore_catch (c : State) (err : exn) : prog unit :=
  (console_error err ;;
   set (SetError (to_string
          (or_else (VStr (message err))
             (VStr "An error occurred while calculating the score")))) ;;
   calculateLocalScore (url c))%prog.

(** [calculateScore], closed over the state [c] of the render that created
    it: the guard and the request read [c], the setters act on the state
    current when they run. *)
Definition calculateScore (c : State) : prog unit :=
  if isCalculating c || String.eqb (url c) (lastCalculatedUrl c) then ret tt
  else
    (set (SetIsCalculating true) ;;
     set (SetError "") ;;
     set (SetLastCalculatedUrl (url c)) ;;
     finally
       (try_catch (calculateScore_try c) (calculateScore_catch c))
       (set (SetIsCalculating false)))%prog.

(** The ways the [try] block fails on an answer of the scoring endpoint,
    with the error it throws: the request is rejected, the body does not
    parse, or the status is not a success. *)
Inductive primary_failure : completion response -> exn -> Prop :=
| fetch_rejected (e : exn) :
    primary_failure (Throw e) e
| body_unparseable (resp : response) (e : exn) :
    json resp = Throw e ->
    primary_failure (Return resp) e
| error_body_null (resp : response) (errorData : value) (e : exn) :
    ok resp = false ->
    json resp = Return errorData ->
    get null_access_message errorData "detail" = Throw e ->
    primary_failure (Return resp) e
| error_status (resp : response) (errorData detail : value) :
    ok resp = false ->
    json resp = Return errorData ->
    get null_access_message errorData "detail" = Return detail ->
    primary_failure (Return resp)
      (new_Error (or_else detail (VStr "Failed to calculate score"))).

Definition resetScore : prog unit :=
  (set (SetUrl "") ;;
   set (SetScoreData VNull) ;;
   set (SetLogoUrl "") ;;
   set (SetLastCalculatedUrl "") ;;
   set (SetError ""))%prog.

(** The [disabled] attribute of the Calculate button. *)
Definition calculate_disabled (st : State) : bool :=
  isCalculating st || negb (truthy (VStr (url st))).

(** ** User events

    Between two events React renders again, so a handler reads the state
    left by the previous one.  A disabled button dispatches no click. *)

Definition onChange (s : string) : prog unit := set (SetUrl s).

Definition click_calculate (st : State) : prog unit :=
  if calculate_disabled st then ret tt else calculateScore st.

Definition click_reset : prog unit := resetScore.

(** ** The page

    The component together with the calls of [calculateScore] that are
    suspended at an [await].  An event is handled to its end before the
    next one: a user event runs its handler up to the first suspension,
    [Settled i] resumes the [i]-th suspended call with the world's answer
    up to its next suspension. *)

Record Page : Type := {
  trace : Trace;
  suspended : list (pending unit)
}.

Inductive event : Type :=
| Typed (s : string)
| ClickCalculate
| ClickReset
| Settled (i : nat).

Definition loaded : Page :=
  {| trace := start initial; suspended := [] |}.

(** A call that has not finished waits among the suspended ones. *)
Definition park (p : pending unit) : list (pending unit) :=
  match p with
  | Finished _ => []
  | OnFetch _ _ _ | OnPromise _ => [p]
  end.

Definition dispatch (w : World) (handler : prog unit) (pg : Page) : Page :=
  let (t, p) := advance w handler (trace pg) in
  {| trace := t; suspended := suspended pg ++ park p |}.

Definition handle (w : World) (pg : Page) (e : event) : Page :=
  match e with
  | Typed s => dispatch w (onChange s) pg
  | ClickCalculate => dispatch w (click_calculate (component (trace pg))) pg
  | ClickReset => dispatch w click_reset pg
  | Settled i =>
      match nth_error (suspended pg) i with
      | None => pg
      | Some p =>
          let (t, p') := resume w p (trace pg) in
          {| trace := t;
             suspended := firstn i (suspended pg) ++ park p'
                          ++ skipn (S i) (suspended pg) |}
      end
  end.

Definition browse (w : World) (events : list event) : Page :=
  fold_left (handle w) events loaded.

End Component.

End GeoScoreTool.

(** ** The specification's wording of brand derivation *)

Module Spec.

Import JsString.

(** Stripping a leading [p]: [s] without [p] when [s] starts with it. *)
Definition strip_leading (p s : string) : string :=
  if startsWith p s then drop (String.length p) s else s.

(** In the specification's words: take the hostname, strip a leading
    [www.] literal, split on the dot, and return the first label if the
    hostname has at least 2 labels, else the whole hostname. *)
Definition deriveBrand (hostname : string) : string :=
  let stripped := strip_leading "www." hostname in
  let labels := split "." stripped in
  if (2 <=? List.length labels)%nat then hd stripped labels else stripped.

(** [sub] occurs in [s] as a substring. *)
Definition contains (sub s : string) : Prop :=
  exists before after, s = before ++ sub ++ after.

(** The page map of a knowledge-base answer, [undefined] when the answer
    has none. *)
Definition page_map (data : value) : value :=
  Js.member (Js.member data "query") "pages".

(** The knowledge base has the page: the request was answered, the answer
    parsed, it carries a page map, and the first page ID of the map is not
    the sentinel [-1]. *)
Definition page_found (answer : completion response) : Prop :=
  exists resp data,
    answer = Return resp /\ json resp = Return data /\
    Js.truthy (page_map data) = true /\
    hd_error (Js.keys (page_map data)) <> Some "-1".

(** The fetched content carries the structured-data marker. *)
Definition marker_found (answer : completion response) : Prop :=
  exists resp content,
    answer = Return resp /\ text resp = Return content /\
    contains "schema.org" content.

End Spec.

(** ** A platform and a world to evaluate the component on

    The theorems below hold for every URL parser and every lower-casing
    function.  To evaluate the component on concrete inputs this module
    supplies a small parser: it recognises [http://] or [https://], a
    non-empty host of ASCII letters and dots, and an optional path, and
    answers the host in lower case, as the platform does on such inputs.
    It rejects every other input, many of which the platform accepts. *)

Module Sample.

Import JsString.

Definition host_char (c : ascii) : bool :=
  let n := nat_of_ascii c in
  (Nat.leb 97 n && Nat.leb n 122) || Nat.eqb n 46.

Definition after_scheme (input : string) : option string :=
  if startsWith "https://" input then Some (drop 8 input)
  else if startsWith "http://" input then Some (drop 7 input)
  else None.

Definition URL_hostname (input : string) : completion string :=
  match after_scheme input with
  | Some rest =>
      let host := lower (before_first "/" rest) in
      if negb (String.eqb host "") && forallb host_char (list_ascii_of_string host)
      then Return host
      else Throw (Error "Invalid URL")
  | None => Throw (Error "Invalid URL")
  end.

Definition null_access_message (key : string) : string :=
  "Cannot read properties of null (reading '" ++ key ++ "')".

(** One half, as a double. *)
Definition half : unit_double := {| mantissa := 2 ^ 52; exponent := 53 |}.

(** The largest double below one. *)
Definition almost_one : unit_double := {| mantissa := 2 ^ 53 - 1; exponent := 53 |}.

Definition zero : unit_double := {| mantissa := 0; exponent := 53 |}.

(** A world without network: every [fetch] rejects. *)
Definition offline (d : unit_double) : World :=
  {| network := fun _ _ => Throw (Error "Failed to fetch");
     entropy := fun _ => d |}.

(** A world whose scoring endpoint answers with status [ok] and a body
    that [json()] settles to [body], every other request being rejected. *)
Definition scoring (ok : bool) (body : completion value) (d : unit_double) : World :=
  {| network := fun _ r =>
       if String.eqb (target r) "/api/check-score"
       then Return {| ok := ok; json := body; text := Throw (Error "body used") |}
       else Throw (Error "Failed to fetch");
     entropy := fun _ => d |}.

(** A world in which both signal checks succeed: the knowledge base knows
    the page and the fetched markup carries the marker. *)
Definition rich (d : unit_double) : World :=
  {| network := fun _ r =>
       if String.eqb (target r) "/api/check-score"
       then Throw (Error "Failed to fetch")
       else Return {| ok := true;
                      json := Return (VObj [("query", VObj [("pages", VObj [("21492", VObj [])])])]);
                      text := Return "<script type='application/ld+json'>{'@context':'https://schema.org'}</script>" |};
     entropy := fun _ => d |}.

Definition typed (s : string) : State :=
  {| url := s; scoreData := VNull; logoUrl := ""; isCalculating := false;
     lastCalculatedUrl := ""; error := "" |}.

Definition site : string := "https://www.example.com".

Definition calculateScore : State -> prog unit :=
  GeoScoreTool.calculateScore URL_hostname lower null_access_message.

(** The state once the user has typed [site], clicked Calculate without
    network, seen the fallback result and emptied the input. *)
Definition emptied : State :=
  apply (SetUrl "")
    (Async.component
       (fst (Async.run (offline half) (calculateScore (typed site))
               (Async.start (typed site))))).

(** The state right after a click on Calculate, the request outstanding. *)
Definition in_flight : State :=
  Async.component
    (fst (Async.advance (offline half) (calculateScore (typed site))
            (Async.start (typed site)))).

(** A scoring endpoint that answers 500 with an empty body. *)
Definition empty_error_body : World :=
  scoring false (Throw (Error "Unexpected end of JSON input")) half.

(** A scoring endpoint that answers 500 with a [detail]. *)
Definition quota_exceeded : World :=
  scoring false (Return (VObj [("detail", VStr "quota exceeded")])) half.

End Sample.

(** ** In-flight discipline *)

Module InFlight.

Import Async.

(** The setters other than [setIsCalculating]. *)
Definition keeps_flag (u : update) : bool :=
  match u with
  | SetIsCalculating _ => false
  | _ => true
  end.

(** A program that never calls [setIsCalculating]. *)
Inductive quiet {A : Type} : prog A -> Prop :=
| quiet_done (c : completion A) : quiet (Done c)
| quiet_update (u : update) (k : prog A) :
    keeps_flag u = true -> quiet k -> quiet (Update u k)
| quiet_random (k : unit_double -> prog A) :
    (forall d, quiet (k d)) -> quiet (Random k)
| quiet_console (e : exn) (k : prog A) : quiet k -> quiet (Console e k)
| quiet_fetch (r : request) (k : completion response -> prog A) :
    (forall a, quiet (k a)) -> quiet (Fetch r k)
| quiet_await (k : prog A) : quiet k -> quiet (Await k).

(** A program whose only call of [setIsCalculating] is
    [setIsCalculating(false)], as its last step on every path. *)
Inductive clears : prog unit -> Prop :=
| clears_last (c : completion unit) :
    clears (Update (SetIsCalculating false) (Done c))
| clears_update (u : update) (k : prog unit) :
    keeps_flag u = true -> clears k -> clears (Update u k)
| clears_random (k : unit_double -> prog unit) :
    (forall d, clears (k d)) -> clears (Random k)
| clears_console (e : exn) (k : prog unit) : clears k -> clears (Console e k)
| clears_fetch (r : request) (k : completion response -> prog unit) :
    (forall a, clears (k a)) -> clears (Fetch r k)
| clears_await (k : prog unit) : clears k -> clears (Await k).

(** A suspended call that will clear the flag when it ends. *)
Definition clearing (p : pending unit) : Prop :=
  match p with
  | Finished _ => False
  | OnFetch _ _ k => forall a, clears (k a)
  | OnPromise k => clears k
  end.

(** Nothing is suspended and nothing is in flight, or one call is
    suspended, the flag is set and the call will clear it. *)
Definition single_flight (pg : GeoScoreTool.Page) : Prop :=
  (GeoScoreTool.suspended pg = [] /\
   isCalculating (Async.component (GeoScoreTool.trace pg)) = false)
  \/
  (exists p,
      GeoScoreTool.suspended pg = [p] /\
      isCalculating (Async.component (GeoScoreTool.trace pg)) = true /\
      clearing p).

End InFlight.

(** ** What the component renders

    The value of the JSX expressions of [renderScoreCard] and of the
    component itself: an element is its tag, its props and its children; a
    JavaScript value in child position is kept as it is (React shows
    strings and numbers and skips [false], [null], [undefined] and the
    empty string).  What React does with the tree afterwards is not part
    of the component; [renderable] says which trees it accepts. *)

Module Render.

Import JsString Js.

Inductive handler : Type :=
| OnChangeUrl
| OnClickCalculate
| OnClickReset.

(** The value of a prop: a JavaScript value, the [reportRef] object or an
    event handler. *)
Inductive attribute : Type :=
| Attr (v : value)
| Ref
| Handler (h : handler).

#[warnings="-register-all"]
Inductive node : Type :=
| Child (v : value)
| Element (tag : string) (props : list (string * attribute)) (children : list node)
| Children (items : list node).

Definition className (c : string) : string * attribute :=
  ("className", Attr (VStr c)).

(** [v.length] on a value that is neither [null] nor [undefined]. *)
Definition length_of (v : value) : value :=
  match v with
  | VArr items => VNum (Z.of_nat (List.length items))
  | VStr s => VNum (Z.of_nat (String.length s))
  | VObj props => lookup "length" props
  | _ => VUndefined
  end.

Definition characters (s : string) : list value :=
  map (fun c => VStr (String c EmptyString)) (list_ascii_of_string s).

(** Pairing the items of an array with their indices. *)
Fixpoint indexed {A} (i : nat) (items : list A) : list (nat * A) :=
  match items with
  | [] => []
  | x :: rest => (i, x) :: indexed (S i) rest
  end.

(** [Object.entries(v)] for a value that is neither [null] nor
    [undefined]. *)
Definition entries (v : value) : list (string * value) :=
  match v with
  | VObj props => props
  | VArr items => map (fun p => (string_of_nat (fst p), snd p)) (indexed 0 items)
  | VStr s => map (fun p => (string_of_nat (fst p), snd p)) (indexed 0 (characters s))
  | _ => []
  end.

(** Mapping a callback that may throw over an array: the first throw
    ends the loop. *)
Fixpoint map_completion {A B} (f : A -> completion B) (items : list A)
  : completion (list B) :=
  match items with
  | [] => Return []
  | x :: rest =>
      match f x with
      | Throw e => Throw e
      | Return y =>
          match map_completion f rest with
          | Throw e => Throw e
          | Return ys => Return (y :: ys)
          end
      end
  end.

(** What React accepts in child position: a string, a number, a boolean,
    [null], [undefined], or an array of such; an object there makes it
    throw when it renders the tree. *)
Fixpoint renderable_value (v : value) : bool :=
  match v with
  | VObj _ => false
  | VArr items => forallb renderable_value items
  | _ => true
  end.

(** A tree that React renders: no child of it is an object. *)
Fixpoint renderable (n : node) : bool :=
  match n with
  | Child v => renderable_value v
  | Element _ _ children => forallb renderable children
  | Children items => forallb renderable items
  end.

(** The text of a history link. *)
Definition link_text (link : value) : value :=
  or_else (member link "title") (member link "url").

(** A history link that is an object or a primitive: reading its
    properties does not throw. *)
Definition not_null (v : value) : Prop := v <> VNull /\ v <> VUndefined.

(** A score whose parts can be shown: brand, total, the values of the
    breakdown, the suggestions and the texts of the history links are
    strings, numbers, booleans, [null] or arrays of such; the suggestions
    and the history links are arrays, or absent; no history link is
    [null]. *)
Definition well_shaped (scoreData : value) : Prop :=
  renderable_value (member scoreData "brand") = true /\
  renderable_value (member scoreData "total") = true /\
  Forall (fun entry => renderable_value (snd entry) = true)
    (entries (member scoreData "breakdown")) /\
  (truthy (member scoreData "suggestions") = false \/
   exists items,
     member scoreData "suggestions" = VArr items /\
     Forall (fun suggestion => renderable_value suggestion = true) items) /\
  (truthy (member scoreData "history_links") = false \/
   exists links,
     member scoreData "history_links" = VArr links /\
     Forall (fun link => not_null link /\
                         renderable_value (link_text link) = true) links).

Section View.

Variable URL_hostname : string -> completion string.

Variable null_access_message : string -> string.

(** Whether [ToNumber(s) > 0] for a string [s]; the component compares
    with [0] only a [length], which is a string only in a malformed
    answer. *)
Variable string_positive : string -> bool.

(** The message of the [TypeError] thrown when a value that is not a
    function is called; it depends on the engine. *)
Variable not_a_function_message : string -> string.

(** [v > 0] *)
Definition greater_than_zero (v : value) : bool :=
  match v with
  | VUndefined | VNull => false
  | VBool b => b
  | VNum n => 0 <? n
  | VStr s => string_positive s
  | VArr _ | VObj _ => string_positive (to_string v)
  end.

(** [{logoUrl && <img ... />}] *)
Definition logo_image (logoUrl : string) : node :=
  if truthy (VStr logoUrl)
  then Element "img" [ ("src", Attr (VStr logoUrl));
                       ("alt", Attr (VStr "Website logo"));
                       className "w-12 h-12 mr-3" ] []
  else Child (VStr logoUrl).

(** The callback of the [map] over the entries of the breakdown. *)
Definition breakdown_row (entry : string * value) : node :=
  let (key, value) := entry in
  Element "div" [ ("key", Attr (VStr key)); className "flex justify-between" ]
    [ Element "span" [ className "capitalize" ]
        [ Child (VStr (replace "_" " " key)) ];
      Element "span" [] [ Child value ] ].

(** [{scoreData.breakdown && (...)}] *)
Definition breakdown_section (scoreData : value) : node :=
  let breakdown := member scoreData "breakdown" in
  if truthy breakdown
  then Element "div" [ className "mt-4" ]
         [ Element "h3" [ className "font-semibold mb-2" ]
             [ Child (VStr "Score Breakdown") ];
           Element "div" [ className "space-y-2" ]
             [ Children (map breakdown_row (entries breakdown)) ] ]
  else Child breakdown.

Definition suggestion_item (entry : nat * value) : node :=
  let (index, suggestion) := entry in
  Element "li" [ ("key", Attr (VNum (Z.of_nat index))) ] [ Child suggestion ].

(** [{scoreData.suggestions && scoreData.suggestions.length > 0 && (...)}] *)
Definition suggestions_section (scoreData : value) : completion node :=
  let suggestions := member scoreData "suggestions" in
  if truthy suggestions then
    if greater_than_zero (length_of suggestions) then
      match suggestions with
      | VArr items =>
          Return
            (Element "div" [ className "mt-4" ]
               [ Element "h3" [ className "font-semibold mb-2" ]
                   [ Child (VStr "Suggestions") ];
                 Element "ul" [ className "list-disc pl-5 space-y-1" ]
                   [ Children (map suggestion_item (indexed 0 items)) ] ])
      | _ => Throw (Error (not_a_function_message "scoreData.suggestions.map"))
      end
    else Return (Child (VBool false))
  else Return (Child suggestions).

Definition history_item (entry : nat * value) : completion node :=
  let (index, link) := entry in
  match get null_access_message link "url" with
  | Throw e => Throw e
  | Return href =>
      match get null_access_message link "title" with
      | Throw e => Throw e
      | Return title =>
          match get null_access_message link "url" with
          | Throw e => Throw e
          | Return url =>
              Return
                (Element "li" [ ("key", Attr (VNum (Z.of_nat index))) ]
                   [ Element "a" [ ("href", Attr href);
                                   ("target", Attr (VStr "_blank"));
                                   ("rel", Attr (VStr "noopener noreferrer"));
                                   className "text-blue-600 hover:underline" ]
                       [ Child (or_else title url) ] ])
          end
      end
  end.

(** [{scoreData.history_links && scoreData.history_links.length > 0 && (...)}] *)
Definition history_section (scoreData : value) : completion node :=
  let history_links := member scoreData "history_links" in
  if truthy history_links then
    if greater_than_zero (length_of history_links) then
      match history_links with
      | VArr items =>
          match map_completion history_item (indexed 0 items) with
          | Throw e => Throw e
          | Return links =>
              Return
                (Element "div" [ className "mt-4" ]
                   [ Element "h3" [ className "font-semibold mb-2" ]
                       [ Child (VStr "History") ];
                     Element "ul" [ className "space-y-1" ]
                       [ Children links ] ])
          end
      | _ => Throw (Error (not_a_function_message "scoreData.history_links.map"))
      end
    else Return (Child (VBool false))
  else Return (Child history_links).

(** The head of the card: logo, brand, hostname and total. *)
Definition card_header (st : State) (hostname : string) : node :=
  Element "div" [ className "flex justify-between items-center mb-4" ]
    [ Element "div" [ className "flex items-center" ]
        [ logo_image (logoUrl st);
          Element "div" []
            [ Element "h2" [ className "text-xl font-bold" ]
                [ Child (or_else (member (scoreData st) "brand")
                           (VStr "Your Brand")) ];
              Element "p" [ className "text-sm text-gray-600" ]
                [ Child (VStr hostname) ] ] ];
      Element "div" [ className "text-right" ]
        [ Element "div" [ className "text-4xl font-bold" ]
            [ Child (or_else (member (scoreData st) "total") (VStr "--"));
              Element "span" [ className "text-lg" ] [ Child (VStr "/100") ] ];
          Element "div" [ className "text-sm text-gray-600" ]
            [ Child (VStr "GEO Score") ] ] ].

(** [renderScoreCard()], with the state of the render it runs in.  The
    expressions are evaluated in the order of the source: the hostname of
    [url] before the suggestions and the history. *)
Definition renderScoreCard (st : State) : completion node :=
  if negb (truthy (scoreData st)) then Return (Child VNull)
  else
    match URL_hostname (url st) with
    | Throw e => Throw e
    | Return hostname =>
        match suggestions_section (scoreData st) with
        | Throw e => Throw e
        | Return suggestions =>
            match history_section (scoreData st) with
            | Throw e => Throw e
            | Return history =>
                Return
                  (Element "div"
                     [ className "mt-6 p-4 bg-white rounded-lg shadow";
                       ("ref", Ref) ]
                     [ card_header st hostname;
                       breakdown_section (scoreData st);
                       suggestions;
                       history ])
            end
        end
    end.

(** The Calculate button. *)
Definition calculate_button (st : State) : node :=
  Element "button"
    [ ("onClick", Handler OnClickCalculate);
      ("disabled", Attr (VBool (isCalculating st || negb (truthy (VStr (url st))))));
      className ("px-4 py-2 rounded text-white "
                 ++ (if isCalculating st || negb (truthy (VStr (url st)))
                     then "bg-blue-400"
                     else "bg-blue-600 hover:bg-blue-700")) ]
    [ Child (VStr (if isCalculating st then "Calculating..."
                   else "Calculate Score")) ].

(** [{error && (...)}] *)
Definition error_box (st : State) : node :=
  if truthy (VStr (error st))
  then Element "div" [ className "mt-4 p-3 bg-red-100 text-red-700 rounded" ]
         [ Child (VStr (error st)) ]
  else Child (VStr (error st)).

(** What [GeoScoreTool] returns.  The emoji of the heading stands here as
    its UTF-8 bytes. *)
Definition render (st : State) : completion node :=
  match renderScoreCard st with
  | Throw e => Throw e
  | Return card =>
      Return
        (Element "div" [ className "p-6 max-w-3xl mx-auto font-sans" ]
           [ Element "h1" [ className "text-2xl font-bold mb-6" ]
               [ Child (VStr "🧠 Generative Engine Optimization (GEO) Score Tool") ];
             Element "div" [ className "mb-4" ]
               [ Element "label" [ className "block text-sm font-medium mb-1" ]
                   [ Child (VStr "Website URL") ];
                 Element "input"
                   [ ("type", Attr (VStr "text"));
                     ("value", Attr (VStr (url st)));
                     ("onChange", Handler OnChangeUrl);
                     className "w-full border p-2 rounded";
                     ("placeholder", Attr (VStr "e.g., https://example.com")) ]
                   [] ];
             Element "div" [ className "flex gap-3" ]
               [ calculate_button st;
                 Element "button"
                   [ ("onClick", Handler OnClickReset);
                     className "px-4 py-2 bg-gray-200 rounded hover:bg-gray-300" ]
                   [ Child (VStr "Reset") ] ];
             error_box st;
             card ])
  end.

End View.

End Render.

(** ** The development proxy of [vite.config.js] *)

Module ViteConfig.

Import JsString Js.

(** [env.VITE_API_URL || 'http://localhost:8000'], the proxy target;
    [VITE_API_URL] is [undefined] when the variable is not set. *)
Definition proxy_target (VITE_API_URL : value) : value :=
  or_else VITE_API_URL (VStr "http://localhost:8000").

(** [path.replace(/^\/api/, '')]: the pattern is anchored at the start. *)
Definition proxy_rewrite (path : string) : string :=
  if startsWith "/api" path then drop 4 path else path.

End ViteConfig.

(** ** Chosen draws and sample pages *)

Module Draws.

(** The double in the middle of the [v]-th of [n] equal parts of the unit
    interval. *)
Definition middle (n v : Z) : unit_double :=
  {| mantissa := (2 * v + 1) * 2 ^ 52 / n; exponent := 53 |}.

(** A world that draws [d1], [d2], [d3], in this order, and then [d3]
    again. *)
Definition drawing (net : nat -> request -> completion response)
    (d1 d2 d3 : unit_double) : World :=
  {| network := net;
     entropy := fun n =>
       match n with
       | O => d1
       | S O => d2
       | _ => d3
       end |}.

End Draws.

Module SampleView.

Import JsString Js.

Definition digit (c : ascii) : bool :=
  let n := nat_of_ascii c in Nat.leb 48 n && Nat.leb n 57.

(** Whether a string is a plain decimal numeral greater than zero; the
    platform's conversion of a string to a number agrees on such strings
    and on the strings that hold no digit. *)
Definition string_positive (s : string) : bool :=
  negb (String.eqb s "")
  && forallb digit (list_ascii_of_string s)
  && existsb (fun c => negb (Ascii.eqb c "0")) (list_ascii_of_string s).

Definition not_a_function_message (callee : string) : string :=
  callee ++ " is not a function".

Definition render : State -> completion Render.node :=
  Render.render Sample.URL_hostname Sample.null_access_message
    string_positive not_a_function_message.

Definition renderScoreCard : State -> completion Render.node :=
  Render.renderScoreCard Sample.URL_hostname Sample.null_access_message
    string_positive not_a_function_message.

(** A result of the scoring endpoint with one suggestion and two history
    links, the second without title. *)
Definition remote_result : value :=
  VObj [ ("brand", VStr "example");
         ("total", VNum 71);
         ("breakdown", VObj [ ("recall", VNum 30); ("brand_mention_rate", VNum 41) ]);
         ("suggestions", VArr [ VStr "Add structured data" ]);
         ("history_links",
          VArr [ VObj [ ("url", VStr "https://a.example"); ("title", VStr "A") ];
                 VObj [ ("url", VStr "https://b.example") ] ]) ].

(** The state with [remote_result] on the page. *)
Definition scored (result : value) : State :=
  {| url := Sample.site; scoreData := result;
     logoUrl := "https://www.google.com/s2/favicons?sz=128&domain=www.example.com";
     isCalculating := false; lastCalculatedUrl := Sample.site; error := "" |}.

End SampleView.

(** * Properties *)

(** ** Strings *)

Module StringFacts.

Import JsString.

Lemma startsWith_app (p rest : string) : startsWith p (p ++ rest) = true.
Proof.
  induction p as [|a p IH]; simpl; [reflexivity|].
  now rewrite Ascii.eqb_refl.
Qed.

Lemma startsWith_inv (p s : string) :
  startsWith p s = true -> s = p ++ drop (String.length p) s.
Proof.
  revert s; induction p as [|a p IH]; intros s H; simpl in *; [reflexivity|].
  destruct s as [|b s]; [discriminate|].
  apply andb_true_iff in H as [Hab Hp].
  apply Ascii.eqb_eq in Hab; subst b.
  simpl. f_equal. now apply IH.
Qed.

Lemma includes_unfold (sub s : string) :
  includes sub s =
  if startsWith sub s then true
  else match s with
       | EmptyString => false
       | String _ s' => includes sub s'
       end.
Proof. destruct s; reflexivity. Qed.

Lemma replace_unfold (pat rep s : string) :
  replace pat rep s =
  if startsWith pat s then rep ++ drop (String.length pat) s
  else match s with
       | EmptyString => EmptyString
       | String c s' => String c (replace pat rep s')
       end.
Proof. destruct s; reflexivity. Qed.

Lemma includes_contains (sub s : string) :
  includes sub s = true <-> Spec.contains sub s.
Proof.
  split.
  - induction s as [|c s IH]; rewrite includes_unfold;
      destruct (startsWith sub _) eqn:E; intro H.
    + exists "", (drop (String.length sub) ""). now apply startsWith_inv.
    + discriminate.
    + exists "", (drop (String.length sub) (String c s)). now apply startsWith_inv.
    + destruct (IH H) as (before & after & ->).
      now exists (String c before), after.
  - intros (before & after & ->).
    induction before as [|c before IH]; rewrite includes_unfold.
    + simpl. now rewrite startsWith_app.
    + destruct (startsWith sub _); [reflexivity | exact IH].
Qed.

Lemma replace_leading (pat rep s : string) :
  startsWith pat s = true ->
  replace pat rep s = rep ++ drop (String.length pat) s.
Proof. intro H. rewrite replace_unfold. now rewrite H. Qed.

Lemma includes_false_startsWith (pat s : string) :
  includes pat s = false -> startsWith pat s = false.
Proof.
  rewrite includes_unfold. destruct (startsWith pat s); [discriminate | reflexivity].
Qed.

Lemma replace_absent (pat rep s : string) :
  includes pat s = false -> replace pat rep s = s.
Proof.
  induction s as [|c s IH]; intro H; rewrite replace_unfold;
    rewrite (includes_false_startsWith _ _ H); [reflexivity|].
  f_equal. apply IH.
  rewrite includes_unfold in H.
  now rewrite (includes_false_startsWith pat (String c s)) in H
    by (rewrite includes_unfold; exact H).
Qed.

(** [replace] strips a leading [pat] exactly when [pat] occurs at the
    front of [s] or nowhere in it. *)
Lemma replace_strip_leading (pat s : string) :
  startsWith pat s = true \/ includes pat s = false ->
  replace pat "" s = Spec.strip_leading pat s.
Proof.
  unfold Spec.strip_leading. intros [H|H].
  - rewrite H. now rewrite replace_leading.
  - rewrite (includes_false_startsWith _ _ H). now apply replace_absent.
Qed.

Lemma split_first (sep : ascii) (s : string) :
  exists rest, split sep s = before_first sep s :: rest.
Proof.
  induction s as [|c s [rest IH]]; simpl; [now exists []|].
  destruct (Ascii.eqb c sep); [now eexists|].
  rewrite IH. now eexists.
Qed.

Lemma index_split (sep : ascii) (s : string) :
  Js.index (split sep s) 0 = VStr (before_first sep s).
Proof. destruct (split_first sep s) as [rest ->]. reflexivity. Qed.

Lemma before_first_absent (c : ascii) (s : string) :
  mem c s = false -> before_first c s = s.
Proof.
  induction s as [|a s IH]; simpl; [reflexivity|].
  destruct (Ascii.eqb a c); [discriminate|].
  intro H. f_equal. now apply IH.
Qed.

(** A string without separator is its own single piece. *)
Lemma split_single (sep : ascii) (s : string) :
  (List.length (split sep s) < 2)%nat -> before_first sep s = s.
Proof.
  induction s as [|c s IH]; simpl; [reflexivity|].
  destruct (Ascii.eqb c sep).
  - destruct (split_first sep s) as [rest ->]. simpl. lia.
  - destruct (split_first sep s) as [rest E]. rewrite E in *. simpl in *.
    intro H. f_equal. now apply IH.
Qed.

Lemma lower_keeps_dot (s : string) : mem "." (lower s) = mem "." s.
Proof.
  induction s as [|c s IH]; simpl; [reflexivity|].
  rewrite IH. f_equal.
  destruct c as [[] [] [] [] [] [] [] []]; reflexivity.
Qed.

End StringFacts.

(** ** Doubles *)

Module FloatFacts.

Import Float.

Lemma validb_valid (d : unit_double) : validb d = true -> valid d.
Proof. unfold validb, valid. lia. Qed.

(** Rounding moves a number by at most half a unit in the last place. *)
Lemma round53_upper (x : Z) : 0 <= x -> round53 x <= x + x / 2 ^ 53.
Proof.
  intro Hx. unfold round53.
  destruct (x <? 2 ^ 53) eqn:Hsmall.
  - assert (0 <= x / 2 ^ 53) by (apply Z.div_pos; lia). lia.
  - apply Z.ltb_ge in Hsmall.
    assert (Hlog : 53 <= Z.log2 x).
    { change 53 with (Z.log2 (2 ^ 53)). now apply Z.log2_le_mono. }
    set (k := Z.log2 x - 52).
    assert (Hk : 1 <= k) by (unfold k; lia).
    assert (Hpow : 2 ^ k = 2 * 2 ^ (k - 1)).
    { replace k with (Z.succ (k - 1)) at 1 by lia. apply Z.pow_succ_r. lia. }
    assert (Hh : 0 < 2 ^ (k - 1)) by (apply Z.pow_pos_nonneg; lia).
    assert (Hhalf : 2 ^ (k - 1) <= x / 2 ^ 53).
    { apply Z.div_le_lower_bound; [lia|].
      rewrite <- Z.pow_add_r by lia.
      replace (53 + (k - 1)) with (Z.log2 x) by (unfold k; lia).
      apply Z.log2_spec. lia. }
    pose proof (Z.div_mod x (2 ^ k) ltac:(lia)) as Hdm.
    pose proof (Z.mod_pos_bound x (2 ^ k) ltac:(lia)) as Hr.
    set (q := x / 2 ^ k) in *. set (r := x mod 2 ^ k) in *.
    set (h := 2 ^ (k - 1)) in *.
    cbv zeta.
    destruct ((h <? r) || ((r =? h) && Z.odd q)) eqn:Hup.
    + assert (h <= r).
      { apply orb_true_iff in Hup as [H|H]; [lia|].
        apply andb_true_iff in H as [H _]. lia. }
      nia.
    + nia.
Qed.

Lemma round53_nonneg (x : Z) : 0 <= x -> 0 <= round53 x.
Proof.
  intro Hx. unfold round53.
  destruct (x <? 2 ^ 53); [exact Hx|].
  cbv zeta.
  assert (Hp : 0 <= 2 ^ (Z.log2 x - 52)) by (apply Z.pow_nonneg; lia).
  assert (Hq : 0 <= x / 2 ^ (Z.log2 x - 52)) by (apply Z_div_nonneg_nonneg; assumption).
  destruct (_ || _); nia.
Qed.

(** [Math.floor(Math.random() * n)] is one of [0 .. n-1]. *)
Lemma floor_times_range (d : unit_double) (n : Z) :
  valid d -> 1 <= n -> 0 <= floor_times d n < n.
Proof.
  intros [[Hm0 Hm1] [He0 He1]] Hn. unfold floor_times.
  set (x := mantissa d * n).
  assert (Hx0 : 0 <= x) by (unfold x; nia).
  assert (Hx1 : x <= (2 ^ 53 - 1) * n) by (unfold x; nia).
  assert (He : 2 ^ 53 <= 2 ^ exponent d) by (apply Z.pow_le_mono_r; lia).
  assert (Hdiv : x / 2 ^ 53 < n) by (apply Z.div_lt_upper_bound; lia).
  pose proof (round53_upper x Hx0) as Hup.
  pose proof (round53_nonneg x Hx0) as Hlo.
  split.
  - apply Z.div_pos; lia.
  - apply Z.div_lt_upper_bound; nia.
Qed.

End FloatFacts.

(** ** Running programs *)

Module AsyncFacts.

Import Async.

Lemma run_bind {A B} (w : World) (p : prog A) (f : A -> prog B) (t : Trace) :
  run w (bind p f) t =
  match run w p t with
  | (t', Return a) => run w (f a) t'
  | (t', Throw e) => (t', Throw e)
  end.
Proof.
  revert t. induction p as [[a|e]|u k IH|k IH|e k IH|r k IH|k IH];
    intro t; simpl; auto.
Qed.

Lemma run_try_catch {A} (w : World) (p : prog A) (h : exn -> prog A) (t : Trace) :
  run w (try_catch p h) t =
  match run w p t with
  | (t', Return a) => (t', Return a)
  | (t', Throw e) => run w (h e) t'
  end.
Proof.
  revert t. induction p as [[a|e]|u k IH|k IH|e k IH|r k IH|k IH];
    intro t; simpl; auto.
Qed.

Lemma run_finally {A} (w : World) (p : prog A) (cleanup : prog unit) (t : Trace) :
  run w (finally p cleanup) t =
  match run w p t with
  | (t', c) =>
      match run w cleanup t' with
      | (t'', Return _) => (t'', c)
      | (t'', Throw e) => (t'', Throw e)
      end
  end.
Proof.
  revert t. induction p as [c|u k IH|k IH|e k IH|r k IH|k IH];
    intro t; simpl; auto.
  rewrite run_bind. destruct (run w cleanup t) as [t' [[]|e]]; reflexivity.
Qed.

(** A run is the synchronous part of the call followed by the run of the
    resumption. *)
Lemma run_advance {A} (w : World) (p : prog A) (t : Trace) :
  run w p t =
  match advance w p t with
  | (t', Finished c) => (t', c)
  | (t', OnFetch n r k) => run w (k (network w n r)) t'
  | (t', OnPromise k) => run w k t'
  end.
Proof.
  revert t. induction p as [c|u k IH|k IH|e k IH|r k IH|k IH];
    intro t; simpl; auto.
Qed.

End AsyncFacts.

(** ** Identity derivation *)

Section IdentityFacts.

Import JsString Js GeoScoreTool StringFacts.

Variable URL_hostname : string -> completion string.
Variable toLowerCase : string -> string.

Local Abbreviation extractBrandName := (extractBrandName URL_hostname toLowerCase).
Local Abbreviation fetchLogo := (fetchLogo URL_hostname).

(** What [extractBrandName] answers on a parsed hostname: always the piece
    before the first dot of the hostname with its first [www.] removed. *)
Lemma extractBrandName_parsed (input hostname : string) :
  URL_hostname input = Return hostname ->
  extractBrandName input =
  Return (VStr (before_first "." (replace "www." "" hostname))).
Proof.
  intro H. unfold GeoScoreTool.extractBrandName. rewrite H. cbn [catch].
  set (h := replace "www." "" hostname).
  destruct (2 <=? List.length (split "." h))%nat eqn:E.
  - now rewrite index_split.
  - apply Nat.leb_gt in E. now rewrite (split_single _ _ E).
Qed.

Lemma spec_deriveBrand_first_label (hostname : string) :
  Spec.deriveBrand hostname =
  before_first "." (Spec.strip_leading "www." hostname).
Proof.
  unfold Spec.deriveBrand.
  set (h := Spec.strip_leading "www." hostname).
  destruct (2 <=? List.length (split "." h))%nat eqn:E.
  - destruct (split_first "." h) as [rest ->]. reflexivity.
  - apply Nat.leb_gt in E. now rewrite (split_single _ _ E).
Qed.

(** X20: [extractBrandName] agrees with the specification's [deriveBrand]
    on every hostname in which [www.] occurs at the front or not at all. *)
Lemma extractBrandName_refines_spec (input hostname : string) :
  URL_hostname input = Return hostname ->
  startsWith "www." hostname = true \/ includes "www." hostname = false ->
  extractBrandName input = Return (VStr (Spec.deriveBrand hostname)).
Proof.
  intros H Hwww. rewrite (extractBrandName_parsed _ _ H).
  rewrite spec_deriveBrand_first_label.
  now rewrite replace_strip_leading.
Qed.

(** C7: on an input that fails URL parsing, [extractBrandName] answers the
    lower-cased input cut at its first dot (all of it when it has no dot)
    and [fetchLogo] answers the empty string; on every input both
    functions return a string and neither throws. *)
Theorem identity_on_unparseable_input (input : string) :
  (exists brand logo,
      extractBrandName input = Return (VStr brand) /\
      fetchLogo input = Return logo) /\
  (forall e, URL_hostname input = Throw e ->
      extractBrandName input =
        Return (VStr (before_first "." (toLowerCase input))) /\
      (mem "." (toLowerCase input) = false ->
       extractBrandName input = Return (VStr (toLowerCase input))) /\
      fetchLogo input = Return "").
Proof.
  split.
  - destruct (URL_hostname input) as [hostname|e] eqn:H.
    + exists (before_first "." (replace "www." "" hostname)).
      eexists. split; [now apply extractBrandName_parsed|].
      unfold GeoScoreTool.fetchLogo. rewrite H. reflexivity.
    + exists (before_first "." (toLowerCase input)), "".
      unfold GeoScoreTool.extractBrandName, GeoScoreTool.fetchLogo.
      rewrite H. cbn [catch]. now rewrite index_split.
  - intros e H.
    assert (Hbrand : extractBrandName input =
                     Return (VStr (before_first "." (toLowerCase input)))).
    { unfold GeoScoreTool.extractBrandName. rewrite H. cbn [catch].
      now rewrite index_split. }
    repeat split.
    + exact Hbrand.
    + intro Hdot. rewrite Hbrand. now rewrite before_first_absent.
    + unfold GeoScoreTool.fetchLogo. rewrite H. reflexivity.
Qed.

End IdentityFacts.

Lemma identity_on_unparseable_input_witness :
  GeoScoreTool.extractBrandName Sample.URL_hostname JsString.lower "Example.COM"
    = Return (VStr "example") /\
  GeoScoreTool.extractBrandName Sample.URL_hostname JsString.lower "not a url"
    = Return (VStr "not a url") /\
  GeoScoreTool.fetchLogo Sample.URL_hostname "not a url" = Return "".
Proof.
  destruct (identity_on_unparseable_input Sample.URL_hostname JsString.lower
              "Example.COM") as [_ H1].
  destruct (identity_on_unparseable_input Sample.URL_hostname JsString.lower
              "not a url") as [_ H2].
  destruct (H1 (Error "Invalid URL") eq_refl) as (Ha & _ & _).
  destruct (H2 (Error "Invalid URL") eq_refl) as (_ & Hb & Hc).
  split; [exact Ha | split; [exact (Hb eq_refl) | exact Hc]].
Defined.

(** C2: the hostname [awww.example.com] has three labels and no leading
    [www.], so its first label is [awww]; [extractBrandName] answers
    [aexample], because [replace] removes the first [www.] wherever it
    stands. *)
Theorem extractBrandName_inner_www :
  Sample.URL_hostname "https://awww.example.com" = Return "awww.example.com" /\
  GeoScoreTool.extractBrandName Sample.URL_hostname JsString.lower
    "https://awww.example.com" = Return (VStr "aexample") /\
  Spec.deriveBrand "awww.example.com" = "awww".
Proof. repeat split. Qed.

(** ** The two signal checks *)

Section SignalFacts.

Import JsString Js Async GeoScoreTool StringFacts AsyncFacts.

Variable null_access_message : string -> string.

Local Abbreviation get := (Js.get null_access_message).
Local Abbreviation checkWikipedia := (checkWikipedia null_access_message).

Lemma get_member (v : value) (key : string) :
  match get v key with
  | Return x => member v key = x
  | Throw _ => member v key = VUndefined
  end.
Proof. destruct v; reflexivity. Qed.

Lemma first_key_sentinel (l : list string) (s : string) :
  strict_eq_string (index l 0) s = true <-> hd_error l = Some s.
Proof.
  destruct l as [|k l]; simpl; [split; discriminate|].
  rewrite String.eqb_eq. split; congruence.
Qed.

(** The verdict of the knowledge-base check on a parsed answer. *)
Lemma pages_verdict (pages : value) :
  (if negb (truthy pages) || strict_eq_string (index (keys pages) 0) "-1"
   then 0 else 20) = 20 <->
  truthy pages = true /\ hd_error (keys pages) <> Some "-1".
Proof.
  rewrite <- first_key_sentinel.
  destruct (truthy pages), (strict_eq_string _ _); simpl;
    intuition (try discriminate; try congruence).
Qed.

Lemma run_checkWikipedia (w : World) (brand : value) (t : Trace) :
  exists z,
    run w (checkWikipedia brand) t =
      (requested (wikipedia_request brand) t, Return z) /\
    (z = 20 /\ Spec.page_found
                 (network w (List.length (sent t)) (wikipedia_request brand))
     \/
     z = 0 /\ ~ Spec.page_found
                 (network w (List.length (sent t)) (wikipedia_request brand))).
Proof.
  unfold GeoScoreTool.checkWikipedia, Spec.page_found.
  cbn -[requested wikipedia_request].
  destruct (network w _ _) as [resp|e]; cbn -[requested wikipedia_request].
  2:{ exists 0. split; [reflexivity|]. right. split; [reflexivity|].
      intros (? & ? & H & _). discriminate. }
  destruct (json resp) as [data|e] eqn:Hjson; cbn -[requested wikipedia_request].
  2:{ exists 0. split; [reflexivity|]. right. split; [reflexivity|].
      intros (? & ? & H & H' & _). injection H as <-. congruence. }
  assert (Hshape : forall z, (z = 20 <-> truthy (Spec.page_map data) = true /\
                        hd_error (keys (Spec.page_map data)) <> Some "-1") ->
                   (z = 0 \/ z = 20) ->
     z = 20 /\ (exists resp0 data0, Return resp = Return resp0 /\
                  json resp0 = Return data0 /\
                  truthy (Spec.page_map data0) = true /\
                  hd_error (keys (Spec.page_map data0)) <> Some "-1") \/
     z = 0 /\ ~ (exists resp0 data0, Return resp = Return resp0 /\
                  json resp0 = Return data0 /\
                  truthy (Spec.page_map data0) = true /\
                  hd_error (keys (Spec.page_map data0)) <> Some "-1")).
  { intros z Hz [->| ->].
    - right. split; [reflexivity|].
      intros (? & ? & H & H' & Hfound). injection H as <-.
      rewrite Hjson in H'. injection H' as <-.
      apply Hz in Hfound. discriminate.
    - left. split; [reflexivity|]. exists resp, data.
      repeat split; try assumption; now apply Hz. }
  unfold Spec.page_map in Hshape.
  pose proof (get_member data "query") as Hq.
  destruct (get data "query") as [query|e]; cbn -[requested wikipedia_request].
  2:{ exists 0. split; [reflexivity|]. apply Hshape; [|now left].
      rewrite Hq. simpl. split; [discriminate | intros [? _]; discriminate]. }
  pose proof (get_member query "pages") as Hp.
  destruct (get query "pages") as [pages|e]; cbn -[requested wikipedia_request].
  2:{ exists 0. split; [reflexivity|]. apply Hshape; [|now left].
      rewrite Hq, Hp. simpl. split; [discriminate | intros [? _]; discriminate]. }
  eexists. split; [reflexivity|]. apply Hshape.
  - rewrite Hq, Hp. apply pages_verdict.
  - destruct (_ || _); auto.
Qed.

Lemma run_checkSchemaMarkup (w : World) (inputUrl : string) (t : Trace) :
  exists z,
    run w (checkSchemaMarkup inputUrl) t =
      (requested (markup_request inputUrl) t, Return z) /\
    (z = 5 /\ Spec.marker_found
                (network w (List.length (sent t)) (markup_request inputUrl))
     \/
     z = 0 /\ ~ Spec.marker_found
                (network w (List.length (sent t)) (markup_request inputUrl))).
Proof.
  unfold checkSchemaMarkup, Spec.marker_found.
  cbn -[requested markup_request includes].
  destruct (network w _ _) as [resp|e]; cbn -[requested markup_request includes].
  2:{ exists 0. split; [reflexivity|]. right. split; [reflexivity|].
      intros (? & ? & H & _). discriminate. }
  destruct (text resp) as [content|e] eqn:Htext;
    cbn -[requested markup_request includes].
  2:{ exists 0. split; [reflexivity|]. right. split; [reflexivity|].
      intros (? & ? & H & H' & _). injection H as <-. congruence. }
  eexists. split; [reflexivity|].
  destruct (includes "schema.org" content) eqn:Hinc.
  - left. split; [reflexivity|]. exists resp, content.
    repeat split; try assumption. now apply includes_contains.
  - right. split; [reflexivity|].
    intros (? & ? & H & H' & Hc). injection H as <-.
    rewrite Htext in H'. injection H' as <-.
    apply includes_contains in Hc. congruence.
Qed.

(** C9: neither check throws.  The knowledge-base check answers 20 when
    the page is found and 0 otherwise: when the request is rejected, the
    body does not parse, the page map is absent, or its first key is the
    sentinel [-1].  The markup check answers 5 exactly when the fetched
    content contains the marker, and 0 otherwise, failures included. *)
Theorem signal_checks_total (w : World) (brand : value) (inputUrl : string)
    (t : Trace) :
  (exists z,
      run w (checkWikipedia brand) t =
        (requested (wikipedia_request brand) t, Return z) /\
      (z = 20 /\ Spec.page_found
                   (network w (List.length (sent t)) (wikipedia_request brand))
       \/
       z = 0 /\ ~ Spec.page_found
                   (network w (List.length (sent t)) (wikipedia_request brand))))
  /\
  (exists z,
      run w (checkSchemaMarkup inputUrl) t =
        (requested (markup_request inputUrl) t, Return z) /\
      (z = 5 /\ Spec.marker_found
                  (network w (List.length (sent t)) (markup_request inputUrl))
       \/
       z = 0 /\ ~ Spec.marker_found
                  (network w (List.length (sent t)) (markup_request inputUrl)))).
Proof.
  split; [apply run_checkWikipedia | apply run_checkSchemaMarkup].
Qed.

End SignalFacts.

(** ** The fallback computation *)

Section FallbackFacts.

Import JsString Js Async GeoScoreTool StringFacts AsyncFacts.

Variable URL_hostname : string -> completion string.
Variable toLowerCase : string -> string.
Variable null_access_message : string -> string.

Local Abbreviation extractBrandName := (extractBrandName URL_hostname toLowerCase).
Local Abbreviation fetchLogo := (fetchLogo URL_hostname).
Local Abbreviation checkWikipedia := (checkWikipedia null_access_message).
Local Abbreviation calculateLocalScore :=
  (calculateLocalScore URL_hostname toLowerCase null_access_message).

Lemma identity_total (input : string) :
  exists brand logo,
    extractBrandName input = Return (VStr brand) /\
    fetchLogo input = Return logo.
Proof.
  unfold GeoScoreTool.extractBrandName, GeoScoreTool.fetchLogo.
  destruct (URL_hostname input) as [hostname|e]; cbn [catch].
  - destruct (2 <=? _)%nat; [rewrite index_split|]; now eexists _, _.
  - rewrite index_split. now eexists _, _.
Qed.

Lemma run_calculateLocalScore (w : World) (u : string) (t : Trace) :
  exists brand logo wiki schemaScore,
    extractBrandName u = Return (VStr brand) /\
    fetchLogo u = Return logo /\
    let t1 := drawn (updated (SetLogoUrl logo) t) in
    let t2 := requested (wikipedia_request (VStr brand)) t1 in
    let t3 := requested (markup_request u) t2 in
    run w (checkWikipedia (VStr brand)) t1 = (t2, Return wiki) /\
    run w (checkSchemaMarkup u) t2 = (t3, Return schemaScore) /\
    (wiki = 0 \/ wiki = 20) /\
    (schemaScore = 0 \/ schemaScore = 5) /\
    let recall := Float.floor_times (entropy w (draws t)) 25 + 10 in
    let seo := Float.floor_times (entropy w (S (draws t))) 10 + 10 in
    let platforms :=
      Z.min 15 (Float.floor_times (entropy w (S (S (draws t)))) 5 + 5 + schemaScore) in
    run w (calculateLocalScore u) t =
      (updated (SetScoreData
                  (localScore (VStr brand) recall wiki seo platforms
                     (recall + wiki + seo + platforms)))
         (drawn (drawn t3)),
       Return tt).
Proof.
  destruct (identity_total u) as (brand & logo & Hbrand & Hlogo).
  set (t1 := drawn (updated (SetLogoUrl logo) t)).
  destruct (run_checkWikipedia null_access_message w (VStr brand) t1)
    as (wiki & Hwiki & Hw).
  set (t2 := requested (wikipedia_request (VStr brand)) t1) in *.
  destruct (run_checkSchemaMarkup w u t2) as (schemaScore & Hschema & Hs).
  exists brand, logo, wiki, schemaScore.
  repeat (split; [first [assumption | tauto]|]).
  unfold GeoScoreTool.calculateLocalScore.
  rewrite Hbrand, Hlogo.
  cbn [bind lift set Math_random ret run].
  fold t1. rewrite run_bind, Hwiki. fold t2. rewrite run_bind, Hschema.
  reflexivity.
Qed.

(** C1: the score object set by the fallback carries a total that is the
    sum of the four entries of its breakdown, a platforms entry of at most
    15, and empty suggestions and history links. *)
Theorem fallback_total_is_sum (w : World) (u : string) (t : Trace) :
  snd (run w (calculateLocalScore u) t) = Return tt /\
  let result := scoreData (component (fst (run w (calculateLocalScore u) t))) in
  let breakdown := member result "breakdown" in
  exists recall wiki seo platforms,
    member breakdown "recall" = VNum recall /\
    member breakdown "wiki" = VNum wiki /\
    member breakdown "seo" = VNum seo /\
    member breakdown "platforms" = VNum platforms /\
    keys breakdown = ["recall"; "wiki"; "seo"; "platforms"] /\
    member result "total" = VNum (recall + wiki + seo + platforms) /\
    platforms <= 15 /\
    member result "suggestions" = VArr [] /\
    member result "history_links" = VArr [].
Proof.
  destruct (run_calculateLocalScore w u t)
    as (brand & logo & wiki & schemaScore & _ & _ & _ & _ & _ & _ & Hrun).
  cbv zeta in Hrun. rewrite Hrun. split; [reflexivity|].
  cbn [fst component updated apply scoreData].
  eexists _, _, _, _. repeat split. apply Z.le_min_l.
Qed.

(** C4: in a fallback computation recall lies in 10..34 and seo in 10..19,
    wiki is the 0 or 20 answered by the knowledge-base check, and platforms
    is the minimum of 15 and [r + schemaScore], for a draw [r] in 5..9 and
    the 0 or 5 answered by the markup check. *)
Theorem fallback_ranges (w : World) (u : string) (t : Trace)
    (Hrandom : forall n, Float.valid (entropy w n)) :
  let result := scoreData (component (fst (run w (calculateLocalScore u) t))) in
  let breakdown := member result "breakdown" in
  exists brand logo recall wiki seo platforms r schemaScore,
    member breakdown "recall" = VNum recall /\
    member breakdown "wiki" = VNum wiki /\
    member breakdown "seo" = VNum seo /\
    member breakdown "platforms" = VNum platforms /\
    10 <= recall <= 34 /\
    10 <= seo <= 19 /\
    (wiki = 0 \/ wiki = 20) /\
    extractBrandName u = Return brand /\
    fetchLogo u = Return logo /\
    snd (run w (checkWikipedia brand) (drawn (updated (SetLogoUrl logo) t)))
      = Return wiki /\
    platforms = Z.min 15 (r + schemaScore) /\
    5 <= r <= 9 /\
    (schemaScore = 0 \/ schemaScore = 5) /\
    snd (run w (checkSchemaMarkup u)
           (requested (wikipedia_request brand)
              (drawn (updated (SetLogoUrl logo) t))))
      = Return schemaScore.
Proof.
  destruct (run_calculateLocalScore w u t)
    as (brand & logo & wiki & schemaScore & Hbrand & Hlogo & Hwiki & Hschema
        & Hw & Hs & Hrun).
  cbv zeta in Hrun, Hwiki, Hschema. rewrite Hrun.
  cbn [fst component updated apply scoreData].
  pose proof (FloatFacts.floor_times_range _ 25 (Hrandom (draws t)) ltac:(lia)).
  pose proof (FloatFacts.floor_times_range _ 10 (Hrandom (S (draws t))) ltac:(lia)).
  pose proof (FloatFacts.floor_times_range _ 5 (Hrandom (S (S (draws t)))) ltac:(lia)).
  exists (VStr brand), logo. eexists _, wiki, _, _.
  exists (Float.floor_times (entropy w (S (S (draws t)))) 5 + 5), schemaScore.
  rewrite Hwiki, Hschema.
  repeat split; try assumption; try reflexivity; lia.
Qed.

(** C10: the clamp at 15 never binds: platforms is its operand, at most
    14, and the total lies in 25..87. *)
Theorem fallback_platforms_below_clamp (w : World) (u : string) (t : Trace)
    (Hrandom : forall n, Float.valid (entropy w n)) :
  let result := scoreData (component (fst (run w (calculateLocalScore u) t))) in
  exists platforms operand total,
    member (member result "breakdown") "platforms" = VNum platforms /\
    member result "total" = VNum total /\
    platforms = Z.min 15 operand /\
    operand <= 9 + 5 /\
    platforms = operand /\
    platforms <= 14 /\
    25 <= total <= 34 + 20 + 19 + 14.
Proof.
  destruct (run_calculateLocalScore w u t)
    as (brand & logo & wiki & schemaScore & _ & _ & _ & _ & Hw & Hs & Hrun).
  cbv zeta in Hrun. rewrite Hrun.
  cbn [fst component updated apply scoreData].
  pose proof (FloatFacts.floor_times_range _ 25 (Hrandom (draws t)) ltac:(lia)).
  pose proof (FloatFacts.floor_times_range _ 10 (Hrandom (S (draws t))) ltac:(lia)).
  pose proof (FloatFacts.floor_times_range _ 5 (Hrandom (S (S (draws t)))) ltac:(lia)).
  eexists _, (Float.floor_times (entropy w (S (S (draws t)))) 5 + 5 + schemaScore), _.
  repeat split; try reflexivity; lia.
Qed.

End FallbackFacts.

Lemma sample_entropy_valid (n : nat) :
  Float.valid (entropy (Sample.rich Sample.almost_one) n).
Proof. unfold Float.valid. simpl. lia. Qed.

Lemma fallback_ranges_witness :
  (forall n, Float.valid (entropy (Sample.rich Sample.almost_one) n)) /\
  exists recall wiki seo platforms : Z,
    10 <= recall <= 34 /\ (wiki = 0 \/ wiki = 20) /\ 10 <= seo <= 19 /\
    platforms <= 15.
Proof.
  split; [exact sample_entropy_valid|].
  destruct (fallback_ranges Sample.URL_hostname JsString.lower
              Sample.null_access_message (Sample.rich Sample.almost_one)
              "https://www.example.com"
              (Async.start (Sample.typed "https://www.example.com"))
              sample_entropy_valid)
    as (_ & _ & recall & wiki & seo & platforms & r & schemaScore
        & _ & _ & _ & _ & Hrecall & Hseo & Hwiki & _ & _ & _ & Hp & Hr & Hs & _).
  exists recall, wiki, seo, platforms. repeat split; try assumption; lia.
Defined.

Lemma fallback_platforms_below_clamp_witness :
  (forall n, Float.valid (entropy (Sample.rich Sample.almost_one) n)) /\
  exists platforms total : Z, platforms <= 14 /\ 25 <= total <= 87.
Proof.
  split; [exact sample_entropy_valid|].
  destruct (fallback_platforms_below_clamp Sample.URL_hostname JsString.lower
              Sample.null_access_message (Sample.rich Sample.almost_one)
              "https://www.example.com"
              (Async.start (Sample.typed "https://www.example.com"))
              sample_entropy_valid)
    as (platforms & operand & total & _ & _ & _ & _ & _ & Hp & Ht).
  exists platforms, total. split; [exact Hp | lia].
Defined.

(** ** The life cycle of a calculation *)

Section LifecycleFacts.

Import JsString Js Async GeoScoreTool StringFacts AsyncFacts.

Variable URL_hostname : string -> completion string.
Variable toLowerCase : string -> string.
Variable null_access_message : string -> string.

Local Abbreviation extractBrandName := (extractBrandName URL_hostname toLowerCase).
Local Abbreviation fetchLogo := (fetchLogo URL_hostname).
Local Abbreviation get := (Js.get null_access_message).
Local Abbreviation calculateLocalScore :=
  (calculateLocalScore URL_hostname toLowerCase null_access_message).
Local Abbreviation calculateScore_try :=
  (calculateScore_try URL_hostname toLowerCase null_access_message).
Local Abbreviation calculateScore_catch :=
  (calculateScore_catch URL_hostname toLowerCase null_access_message).
Local Abbreviation calculateScore :=
  (calculateScore URL_hostname toLowerCase null_access_message).
Local Abbreviation click_calculate :=
  (click_calculate URL_hostname toLowerCase null_access_message).
Local Abbreviation primary_failure := (primary_failure null_access_message).

Lemma guard_closed (c : State) :
  isCalculating c = true \/ url c = lastCalculatedUrl c ->
  calculateScore c = ret tt.
Proof.
  unfold GeoScoreTool.calculateScore. intros [-> | ->]; [reflexivity|].
  now rewrite String.eqb_refl, orb_true_r.
Qed.

Lemma guard_open (c : State) :
  isCalculating c = false -> url c <> lastCalculatedUrl c ->
  isCalculating c || String.eqb (url c) (lastCalculatedUrl c) = false.
Proof.
  intros -> H. now apply String.eqb_neq in H as ->.
Qed.

(** The state after the three setters at the entry of [calculateScore]. *)
Lemma run_try (w : World) (c : State) (t : Trace) (brand : string) :
  extractBrandName (url c) = Return (VStr brand) ->
  let req := score_request (VStr brand) (url c) in
  let answer := network w (List.length (sent t)) req in
  (exists resp data logo,
      answer = Return resp /\ ok resp = true /\ json resp = Return data /\
      fetchLogo (url c) = Return logo /\
      run w (calculateScore_try c) t =
        (updated (SetLogoUrl logo) (updated (SetScoreData data) (requested req t)),
         Return tt))
  \/
  (exists err,
      primary_failure answer err /\
      run w (calculateScore_try c) t = (requested req t, Throw err)).
Proof.
  intros Hbrand req answer.
  unfold GeoScoreTool.calculateScore_try. rewrite Hbrand.
  cbn -[requested score_request]. fold req. fold answer.
  destruct answer as [resp|e] eqn:Ha.
  2:{ right. exists e. split; [constructor | reflexivity]. }
  destruct (ok resp) eqn:Hok; cbn -[requested score_request].
  - destruct (json resp) as [data|e] eqn:Hjson; cbn -[requested score_request].
    + left. destruct (identity_total URL_hostname toLowerCase (url c))
        as (? & logo & _ & Hlogo).
      exists resp, data, logo. rewrite Hlogo. now repeat split.
    + right. exists e. split; [now apply body_unparseable | reflexivity].
  - right.
    destruct (json resp) as [errorData|e] eqn:Hjson; cbn -[requested score_request].
    + destruct (get errorData "detail") as [detail|e] eqn:Hdetail;
        cbn -[requested score_request new_Error or_else].
      * eexists. split; [eapply error_status; eassumption | reflexivity].
      * exists e. split; [eapply error_body_null; eassumption | reflexivity].
    + exists e. split; [now apply body_unparseable | reflexivity].
Qed.

Lemma run_calculateScore (w : World) (c : State) (t : Trace) :
  isCalculating c = false -> url c <> lastCalculatedUrl c ->
  exists brand,
    extractBrandName (url c) = Return (VStr brand) /\
    let req := score_request (VStr brand) (url c) in
    let answer := network w (List.length (sent t)) req in
    let t1 :=
      requested req
        (updated (SetLastCalculatedUrl (url c))
           (updated (SetError "") (updated (SetIsCalculating true) t))) in
    (exists resp data logo,
        answer = Return resp /\ ok resp = true /\ json resp = Return data /\
        fetchLogo (url c) = Return logo /\
        run w (calculateScore c) t =
          (updated (SetIsCalculating false)
             (updated (SetLogoUrl logo) (updated (SetScoreData data) t1)),
           Return tt))
    \/
    (exists err,
        primary_failure answer err /\
        let t2 :=
          updated (SetError (to_string
                     (or_else (VStr (message err))
                        (VStr "An error occurred while calculating the score"))))
            (logged err t1) in
        run w (calculateScore c) t =
          (updated (SetIsCalculating false)
             (fst (run w (calculateLocalScore (url c)) t2)),
           Return tt)).
Proof.
  intros Hidle Hnew.
  destruct (identity_total URL_hostname toLowerCase (url c))
    as (brand & _ & Hbrand & _).
  exists brand. split; [exact Hbrand|]. cbv zeta.
  set (req := score_request (VStr brand) (url c)).
  unfold GeoScoreTool.calculateScore. rewrite (guard_open c Hidle Hnew).
  cbn [bind set ret run]. rewrite run_finally, run_try_catch.
  set (t0 := updated (SetLastCalculatedUrl (url c)) _) in *.
  set (t1 := requested req t0).
  change (sent t) with (sent t0).
  destruct (run_try w c t0 brand Hbrand)
    as [(resp & data & logo & Ha & Hok & Hjson & Hlogo & Hrun)
       |(err & Hfail & Hrun)]; rewrite Hrun.
  - left. exists resp, data, logo. now repeat split.
  - right. exists err. split; [exact Hfail|].
    unfold GeoScoreTool.calculateScore_catch.
    cbn [bind set ret run console_error]. fold req t1.
    set (t2 := updated (SetError _) _).
    destruct (run_calculateLocalScore URL_hostname toLowerCase
                null_access_message w (url c) t2)
      as (? & ? & ? & ? & _ & _ & _ & _ & _ & _ & Hlocal).
    cbv zeta in Hlocal. rewrite Hlocal. reflexivity.
Qed.

Lemma shown_message (m : string) :
  to_string (or_else (VStr m)
               (VStr "An error occurred while calculating the score")) =
  if String.eqb m "" then "An error occurred while calculating the score" else m.
Proof. unfold or_else. simpl. now destruct (String.eqb m ""). Qed.

(** C3: a call of [calculateScore] made by the component, that is a click
    on the Calculate button, is a silent no-op when [url] is empty, when a
    calculation is in flight, or when [url] is the last calculated URL: it
    returns at once, sends nothing, suspends nothing and leaves the page
    as it is.  With an empty [url] the button is disabled and the function
    is not entered; in the other two cases the function itself returns at
    its guard. *)
Theorem guarded_call_is_noop (w : World) (pg : Page) :
  let c := component (trace pg) in
  url c = "" \/ isCalculating c = true \/ url c = lastCalculatedUrl c ->
  advance w (click_calculate c) (trace pg)
    = (trace pg, Finished (Return tt)) /\
  run w (click_calculate c) (trace pg) = (trace pg, Return tt) /\
  GeoScoreTool.handle URL_hostname toLowerCase null_access_message
    w pg ClickCalculate = pg /\
  (url c = "" -> calculate_disabled c = true) /\
  (isCalculating c = true \/ url c = lastCalculatedUrl c ->
   advance w (calculateScore c) (trace pg)
     = (trace pg, Finished (Return tt)) /\
   run w (calculateScore c) (trace pg) = (trace pg, Return tt)).
Proof.
  cbv zeta. intro Hguarded.
  assert (Hclick : click_calculate (component (trace pg)) = ret tt).
  { unfold GeoScoreTool.click_calculate.
    destruct (calculate_disabled (component (trace pg))) eqn:Hdisabled;
      [reflexivity|].
    apply orb_false_iff in Hdisabled as [Hidle Hurl].
    apply guard_closed.
    destruct Hguarded as [Hempty | [Hflight | Hsame]].
    - rewrite Hempty in Hurl. discriminate.
    - now left.
    - now right. }
  split; [now rewrite Hclick|]. split; [now rewrite Hclick|].
  split.
  { unfold GeoScoreTool.handle, dispatch. fold (click_calculate (component (trace pg))).
    rewrite Hclick. cbn [advance ret park].
    destruct pg as [t suspended]. cbn [trace GeoScoreTool.suspended].
    now rewrite app_nil_r. }
  split.
  { intro Hempty. unfold calculate_disabled. rewrite Hempty.
    simpl. apply orb_true_r. }
  intro H. now rewrite (guard_closed _ H).
Qed.

(** C5: from a state that passes the guard, the synchronous part of the
    call marks the calculation in flight, records [url] as last calculated
    and sends one request to the scoring endpoint, before any answer; a
    second call made then returns at once; whatever the world answers, the
    run ends with in-flight cleared and exactly one request to the scoring
    endpoint, and a further call with the same [url] returns at once. *)
Theorem second_call_is_noop (w : World) (c : State)
    (Hidle : isCalculating c = false)
    (Hnew : url c <> lastCalculatedUrl c) :
  let entry := advance w (calculateScore c) (start c) in
  let t1 := fst entry in
  (exists brand k,
      snd entry = OnFetch 0 (score_request brand (url c)) k /\
      sent t1 = [score_request brand (url c)]) /\
  isCalculating (component t1) = true /\
  lastCalculatedUrl (component t1) = url c /\
  url (component t1) = url c /\
  advance w (calculateScore (component t1)) t1 = (t1, Finished (Return tt)) /\
  let t2 := fst (run w (calculateScore c) (start c)) in
  snd (run w (calculateScore c) (start c)) = Return tt /\
  isCalculating (component t2) = false /\
  lastCalculatedUrl (component t2) = url c /\
  List.length
    (filter (fun r => String.eqb (target r) "/api/check-score") (sent t2)) = 1%nat /\
  run w (calculateScore (component t2)) t2 = (t2, Return tt).
Proof.
  destruct (run_calculateScore w c (start c) Hidle Hnew)
    as (brand & Hbrand & Hrun).
  cbv zeta in Hrun |- *.
  assert (Hentry :
    advance w (calculateScore c) (start c) =
      (requested (score_request (VStr brand) (url c))
         (updated (SetLastCalculatedUrl (url c))
            (updated (SetError "") (updated (SetIsCalculating true) (start c)))),
       OnFetch 0 (score_request (VStr brand) (url c))
         (fun a => finally
            (try_catch
               (bind (lift a) (fun response =>
                  if negb (ok response) then
                    (errorData <- await (json response) ;;
                     detail <- lift (get errorData "detail") ;;
                     throw (new_Error (or_else detail
                                         (VStr "Failed to calculate score"))))%prog
                  else
                    (data <- await (json response) ;;
                     set (SetScoreData data) ;;
                     logo <- lift (fetchLogo (url c)) ;;
                     set (SetLogoUrl logo))%prog))
               (calculateScore_catch c))
            (set (SetIsCalculating false))))).
  { unfold GeoScoreTool.calculateScore. rewrite (guard_open c Hidle Hnew).
    unfold GeoScoreTool.calculateScore_try. rewrite Hbrand. reflexivity. }
  rewrite Hentry. cbn [fst snd].
  split; [eexists _, _; split; reflexivity|].
  do 3 (split; [reflexivity|]).
  split; [rewrite guard_closed; [reflexivity | now left]|].
  destruct Hrun as [(resp & data & logo & _ & _ & _ & _ & Hrun)
                   |(err & _ & Hrun)]; rewrite Hrun; cbn [fst snd].
  - repeat (split; [reflexivity|]).
    rewrite guard_closed; [reflexivity | now right].
  - match goal with
    | |- context [run w (calculateLocalScore ?u) ?t] =>
        destruct (run_calculateLocalScore URL_hostname toLowerCase
                    null_access_message w u t)
          as (? & ? & ? & ? & _ & _ & _ & _ & _ & _ & Hlocal)
    end.
    cbv zeta in Hlocal. rewrite Hlocal. cbn [fst].
    repeat (split; [reflexivity|]).
    rewrite guard_closed; [reflexivity | now right].
Qed.

(** C6, amended: on a non-success status the error state is the [detail]
    string of the error body; it is the generic [Failed to calculate score]
    when [detail] is absent or otherwise falsy; when the body does not
    parse it is the message of the parse error, and the generic
    [An error occurred while calculating the score] only if that message
    is empty.  In every case the error state is not empty, it is kept
    while the fallback sets a score object with empty suggestions and
    history links, and in-flight is cleared. *)
Theorem error_kept_with_fallback (w : World) (c : State) (t : Trace)
    (brand : value) (resp : response)
    (Hidle : isCalculating c = false)
    (Hnew : url c <> lastCalculatedUrl c)
    (Hbrand : extractBrandName (url c) = Return brand)
    (Hanswer : network w (List.length (sent t)) (score_request brand (url c))
               = Return resp)
    (Hstatus : ok resp = false) :
  let final := component (fst (run w (calculateScore c) t)) in
  (forall errorData detail,
      json resp = Return errorData ->
      get errorData "detail" = Return (VStr detail) ->
      detail <> "" ->
      error final = detail) /\
  (forall errorData detail,
      json resp = Return errorData ->
      get errorData "detail" = Return detail ->
      truthy detail = false ->
      error final = "Failed to calculate score") /\
  (forall e,
      json resp = Throw e ->
      error final =
        if String.eqb (message e) ""
        then "An error occurred while calculating the score"
        else message e) /\
  error final <> "" /\
  truthy (scoreData final) = true /\
  (exists total, member (scoreData final) "total" = VNum total) /\
  member (scoreData final) "suggestions" = VArr [] /\
  member (scoreData final) "history_links" = VArr [] /\
  isCalculating final = false.
Proof.
  destruct (run_calculateScore w c t Hidle Hnew) as (brand' & Hbrand' & Hrun).
  rewrite Hbrand in Hbrand'. injection Hbrand' as ->.
  cbv zeta in Hrun. rewrite Hanswer in Hrun.
  destruct Hrun as [(? & ? & ? & Ha & Hok & _)|(err & Hfail & Hrun)].
  { injection Ha as <-. congruence. }
  cbv zeta. rewrite Hrun.
  match goal with
  | |- context [run w (calculateLocalScore ?u) ?t] =>
      destruct (run_calculateLocalScore URL_hostname toLowerCase
                  null_access_message w u t)
        as (? & ? & ? & ? & _ & _ & _ & _ & _ & _ & Hlocal)
  end.
  cbv zeta in Hlocal. rewrite Hlocal.
  cbn [fst component updated logged requested drawn apply error scoreData
       isCalculating].
  rewrite shown_message.
  repeat split.
  - intros errorData detail Hjson Hdetail Hne.
    inversion Hfail as [|? ? Hj|? ? ? _ Hj Hg|? ? ? _ Hj Hg]; subst;
      rewrite Hjson in Hj; try discriminate; injection Hj as <-;
      rewrite Hdetail in Hg; try discriminate.
    injection Hg as <-. apply String.eqb_neq in Hne.
    unfold or_else. simpl. rewrite Hne. simpl. now rewrite Hne.
  - intros errorData detail Hjson Hdetail Hfalsy.
    inversion Hfail as [|? ? Hj|? ? ? _ Hj Hg|? ? ? _ Hj Hg]; subst;
      rewrite Hjson in Hj; try discriminate; injection Hj as <-;
      rewrite Hdetail in Hg; try discriminate.
    injection Hg as <-. unfold or_else. now rewrite Hfalsy.
  - intros e Hjson.
    inversion Hfail as [|? ? Hj|? ? ? _ Hj Hg|? ? ? _ Hj Hg]; subst;
      rewrite Hjson in Hj; try discriminate.
    now injection Hj as <-.
  - destruct (String.eqb (message err) "") eqn:E; [discriminate|].
    now apply String.eqb_neq.
  - now eexists.
Qed.

(** C8, amended: [resetScore] sets [url], [scoreData], [logoUrl],
    [lastCalculatedUrl] and [error] to their initial values and leaves
    [isCalculating] as it is, so the state is the initial one when nothing
    is in flight; it sends nothing; a second reset changes nothing; and
    after it a non-empty [url] differs from the last calculated URL, so a
    click submits it unless a calculation is still in flight. *)
Theorem resetScore_restores (w : World) (t : Trace) :
  let t' := fst (run w resetScore t) in
  snd (run w resetScore t) = Return tt /\
  component t' =
    {| url := ""; scoreData := VNull; logoUrl := "";
       isCalculating := isCalculating (component t);
       lastCalculatedUrl := ""; error := "" |} /\
  (isCalculating (component t) = false -> component t' = initial) /\
  (draws t' = draws t /\ sent t' = sent t /\ console t' = console t) /\
  run w resetScore t' = (t', Return tt) /\
  forall u, u <> "" ->
    let c := apply (SetUrl u) (component t') in
    String.eqb (url c) (lastCalculatedUrl c) = false /\
    (isCalculating (component t) = false ->
     exists brand,
       sent (fst (advance w (click_calculate c) (start c)))
       = [score_request brand u]).
Proof.
  remember (isCalculating (component t)) as inFlight eqn:HinFlight.
  assert (Hrun : run w resetScore t =
            ({| component :=
                  {| url := ""; scoreData := VNull; logoUrl := "";
                     isCalculating := inFlight;
                     lastCalculatedUrl := ""; error := "" |};
                draws := draws t; sent := sent t; console := console t |},
             Return tt)).
  { rewrite HinFlight. reflexivity. }
  rewrite Hrun. cbv zeta. cbn [fst snd component draws sent console].
  repeat split.
  - intros ->. reflexivity.
  - now apply String.eqb_neq.
  - intros ->.
    assert (Hu : String.eqb u "" = false) by now apply String.eqb_neq.
    destruct (identity_total URL_hostname toLowerCase u)
      as (brand & _ & Hbrand & _).
    exists (VStr brand).
    unfold GeoScoreTool.click_calculate, calculate_disabled,
      GeoScoreTool.calculateScore, GeoScoreTool.calculateScore_try.
    cbn [apply url isCalculating lastCalculatedUrl truthy].
    rewrite Hu, Hbrand. reflexivity.
Qed.

End LifecycleFacts.

(** ** The page under arbitrary events *)

Section PageFacts.

Import JsString Js Async GeoScoreTool InFlight.

Variable URL_hostname : string -> completion string.
Variable toLowerCase : string -> string.
Variable null_access_message : string -> string.

Local Abbreviation calculateLocalScore :=
  (calculateLocalScore URL_hostname toLowerCase null_access_message).
Local Abbreviation calculateScore_try :=
  (calculateScore_try URL_hostname toLowerCase null_access_message).
Local Abbreviation calculateScore_catch :=
  (calculateScore_catch URL_hostname toLowerCase null_access_message).
Local Abbreviation calculateScore :=
  (calculateScore URL_hostname toLowerCase null_access_message).
Local Abbreviation click_calculate :=
  (click_calculate URL_hostname toLowerCase null_access_message).
Local Abbreviation handle :=
  (handle URL_hostname toLowerCase null_access_message).
Local Abbreviation browse :=
  (browse URL_hostname toLowerCase null_access_message).

Lemma quiet_bind {A B} (p : prog A) (f : A -> prog B) :
  quiet p -> (forall a, quiet (f a)) -> quiet (bind p f).
Proof.
  intros Hp Hf. induction Hp as [[a|e]| | | | |]; simpl;
    try (constructor; auto); auto.
Qed.

Lemma quiet_try_catch {A} (p : prog A) (h : exn -> prog A) :
  quiet p -> (forall e, quiet (h e)) -> quiet (try_catch p h).
Proof.
  intros Hp Hh. induction Hp as [[a|e]| | | | |]; simpl;
    try (constructor; auto); auto.
Qed.

Lemma finally_clears (p : prog unit) :
  quiet p -> clears (finally p (set (SetIsCalculating false))).
Proof.
  intro Hp. induction Hp; simpl; constructor; auto.
Qed.

Lemma quiet_lift {A} (c : completion A) : quiet (lift c).
Proof. constructor. Qed.

Lemma quiet_set (u : update) : keeps_flag u = true -> quiet (set u).
Proof. intro H. now repeat constructor. Qed.

Lemma quiet_checkWikipedia (brand : value) :
  quiet (checkWikipedia null_access_message brand).
Proof.
  apply quiet_try_catch; [|intro; constructor].
  constructor. intros [resp|e]; simpl; [|constructor].
  constructor.
  destruct (json resp) as [data|e]; simpl; [|constructor].
  destruct (get null_access_message data "query") as [query|e]; simpl;
    [|constructor].
  destruct (get null_access_message query "pages"); constructor.
Qed.

Lemma quiet_checkSchemaMarkup (inputUrl : string) :
  quiet (checkSchemaMarkup inputUrl).
Proof.
  apply quiet_try_catch; [|intro; constructor].
  constructor. intros [res|e]; simpl; [|constructor].
  constructor. destruct (text res); constructor.
Qed.

Lemma quiet_calculateLocalScore (u : string) : quiet (calculateLocalScore u).
Proof.
  unfold GeoScoreTool.calculateLocalScore.
  repeat first
    [ apply quiet_bind; [|intro]
    | apply quiet_lift
    | apply quiet_set; reflexivity
    | apply quiet_checkWikipedia
    | apply quiet_checkSchemaMarkup
    | apply quiet_random; intro; constructor ].
Qed.

Lemma quiet_calculateScore_try (c : State) : quiet (calculateScore_try c).
Proof.
  unfold GeoScoreTool.calculateScore_try.
  apply quiet_bind; [apply quiet_lift | intro brand_name].
  apply quiet_bind; [constructor; intro; apply quiet_lift | intro response].
  destruct (negb (ok response)).
  - apply quiet_bind; [constructor; apply quiet_lift | intro].
    apply quiet_bind; [apply quiet_lift | intro; constructor].
  - apply quiet_bind; [constructor; apply quiet_lift | intro].
    apply quiet_bind; [now apply quiet_set | intro].
    apply quiet_bind; [apply quiet_lift | intro; now apply quiet_set].
Qed.

Lemma quiet_calculateScore_catch (c : State) (err : exn) :
  quiet (calculateScore_catch c err).
Proof.
  unfold GeoScoreTool.calculateScore_catch.
  apply quiet_bind; [repeat constructor | intro].
  apply quiet_bind; [now apply quiet_set | intro].
  apply quiet_calculateLocalScore.
Qed.

Lemma keeps_flag_apply (u : update) (st : State) :
  keeps_flag u = true -> isCalculating (apply u st) = isCalculating st.
Proof. destruct u; simpl; congruence. Qed.

(** A quiet handler leaves the flag as it is and, here, finishes. *)
Lemma advance_quiet {A} (w : World) (p : prog A) (t : Trace) :
  quiet p ->
  isCalculating (component (fst (advance w p t))) = isCalculating (component t).
Proof.
  intro Hp. revert t.
  induction Hp as [c|u k Hu Hk IH|k Hk IH|e k Hk IH|r k Hk IH|k Hk IH];
    intro t; simpl; auto.
  - rewrite IH. now apply keeps_flag_apply.
  - now rewrite IH.
  - now rewrite IH.
Qed.

(** A clearing call, run with the flag set, either ends with the flag
    cleared or is suspended again with the flag set. *)
Lemma advance_clears (w : World) (p : prog unit) (t : Trace) :
  clears p ->
  isCalculating (component t) = true ->
  match snd (advance w p t) with
  | Finished _ => isCalculating (component (fst (advance w p t))) = false
  | p' => isCalculating (component (fst (advance w p t))) = true /\ clearing p'
  end.
Proof.
  intro Hp. revert t.
  induction Hp as [c|u k Hu Hk IH|k Hk IH|e k Hk IH|r k Hk IH|k Hk IH];
    intros t Hflag; cbn [advance fst snd].
  - reflexivity.
  - apply IH. simpl. now rewrite keeps_flag_apply.
  - now apply IH.
  - now apply IH.
  - now split.
  - now split.
Qed.

Lemma calculateScore_clears (c : State) :
  isCalculating c || String.eqb (url c) (lastCalculatedUrl c) = false ->
  exists body,
    calculateScore c =
      Update (SetIsCalculating true)
        (Update (SetError "")
           (Update (SetLastCalculatedUrl (url c)) body)) /\
    clears body.
Proof.
  intro Hguard. unfold GeoScoreTool.calculateScore. rewrite Hguard.
  eexists. split; [reflexivity|].
  apply finally_clears, quiet_try_catch.
  - apply quiet_calculateScore_try.
  - apply quiet_calculateScore_catch.
Qed.

Lemma dispatch_quiet (w : World) (handler : prog unit) (pg : Page) :
  quiet handler ->
  snd (advance w handler (trace pg)) = Finished (Return tt) ->
  single_flight pg -> single_flight (dispatch w handler pg).
Proof.
  intros Hquiet Hdone Hpg. unfold dispatch.
  pose proof (advance_quiet w handler (trace pg) Hquiet) as Hflag.
  destruct (advance w handler (trace pg)) as [t p]. simpl in *. subst p.
  unfold single_flight. simpl. rewrite app_nil_r, Hflag. exact Hpg.
Qed.

Lemma handle_single_flight (w : World) (pg : Page) (e : event) :
  single_flight pg -> single_flight (handle w pg e).
Proof.
  intro Hpg. destruct e as [s| | |i]; cbn [GeoScoreTool.handle].
  - apply dispatch_quiet; [now apply quiet_set | reflexivity | exact Hpg].
  - unfold GeoScoreTool.click_calculate.
    destruct (calculate_disabled (component (trace pg))) eqn:Hdisabled.
    { apply dispatch_quiet; [constructor | reflexivity | exact Hpg]. }
    destruct (isCalculating (component (trace pg))
              || String.eqb (url (component (trace pg)))
                   (lastCalculatedUrl (component (trace pg)))) eqn:Hguard.
    { unfold GeoScoreTool.calculateScore. rewrite Hguard.
      apply dispatch_quiet; [constructor | reflexivity | exact Hpg]. }
    destruct (calculateScore_clears _ Hguard) as (body & -> & Hbody).
    apply orb_false_iff in Hguard as [Hidle _].
    destruct Hpg as [[Hnone _]|(p & _ & Hflag & _)]; [|congruence].
    unfold dispatch. cbn [advance]. rewrite Hnone.
    set (t := updated _ (updated _ (updated _ (trace pg)))).
    pose proof (advance_clears w body t Hbody eq_refl) as Hadv.
    destruct (advance w body t) as [t' p']. cbn [fst snd] in Hadv.
    unfold single_flight. cbn [trace suspended app].
    destruct p'; cbn [park]; [now left | right; eexists; now split ..].
  - apply dispatch_quiet; [|reflexivity | exact Hpg].
    repeat (constructor; [reflexivity|]). constructor.
  - destruct (nth_error (suspended pg) i) as [p|] eqn:Hnth; [|exact Hpg].
    destruct Hpg as [[Hnone _]|(p0 & Hone & Hflag & Hp0)].
    { rewrite Hnone in Hnth. destruct i; discriminate. }
    rewrite Hone in Hnth |- *.
    destruct i as [|i]; [|destruct i; discriminate].
    injection Hnth as <-.
    assert (Hadv : match snd (resume w p0 (trace pg)) with
                   | Finished _ =>
                       isCalculating (component (fst (resume w p0 (trace pg))))
                       = false
                   | p' =>
                       isCalculating (component (fst (resume w p0 (trace pg))))
                       = true /\ clearing p'
                   end).
    { destruct p0 as [c|n r k|k]; [contradiction| |];
        cbn [resume]; apply advance_clears; auto. }
    destruct (resume w p0 (trace pg)) as [t' p']. cbn [fst snd] in Hadv.
    unfold single_flight. cbn [trace suspended firstn skipn app].
    destruct p'; cbn [park app]; [now left | right; eexists; now split ..].
Qed.

(** Whatever the user does and whatever the world answers, at most one
    call of [calculateScore] is suspended, and one is exactly when the
    component says that it is calculating. *)
Theorem browse_single_flight (w : World) (events : list event) :
  single_flight (browse w events).
Proof.
  unfold GeoScoreTool.browse.
  assert (Hloaded : single_flight loaded) by (left; now split).
  revert Hloaded. generalize loaded.
  induction events as [|e events IH]; intros pg Hpg; [exact Hpg|].
  apply IH. now apply handle_single_flight.
Qed.

(** X19: two clicks on Calculate in a row, on a freshly typed URL, send
    one request to the scoring endpoint: the second click finds the button
    disabled and changes nothing. *)
Theorem double_click_submits_once (w : World) (u : string) :
  u <> "" ->
  browse w [Typed u; ClickCalculate; ClickCalculate]
    = browse w [Typed u; ClickCalculate] /\
  exists brand,
    sent (trace (browse w [Typed u; ClickCalculate]))
      = [score_request brand u].
Proof.
  intro Hu. apply String.eqb_neq in Hu.
  destruct (identity_total URL_hostname toLowerCase u)
    as (brand & _ & Hbrand & _).
  assert (Hfirst :
    exists k,
      browse w [Typed u; ClickCalculate] =
        {| trace :=
             requested (score_request (VStr brand) u)
               (updated (SetLastCalculatedUrl u)
                  (updated (SetError "")
                     (updated (SetIsCalculating true)
                        (updated (SetUrl u) (start initial)))));
           suspended := [OnFetch 0 (score_request (VStr brand) u) k] |}).
  { set (c := apply (SetUrl u) initial).
    assert (Htyped : handle w loaded (Typed u) =
                     {| trace := start c; suspended := [] |}) by reflexivity.
    assert (Henabled : calculate_disabled c = false).
    { unfold calculate_disabled. simpl. now rewrite Hu. }
    assert (Hguard : isCalculating c || String.eqb (url c) (lastCalculatedUrl c)
                     = false).
    { simpl. exact Hu. }
    unfold GeoScoreTool.browse. cbn [fold_left]. rewrite Htyped.
    cbn [GeoScoreTool.handle trace component start].
    unfold GeoScoreTool.click_calculate. rewrite Henabled.
    unfold GeoScoreTool.calculateScore. rewrite Hguard.
    unfold GeoScoreTool.calculateScore_try.
    change (url c) with u. rewrite Hbrand. eexists. reflexivity. }
  destruct Hfirst as (k & Hfirst).
  split; [|exists (VStr brand); now rewrite Hfirst].
  change (browse w [Typed u; ClickCalculate; ClickCalculate])
    with (handle w (browse w [Typed u; ClickCalculate]) ClickCalculate).
  rewrite Hfirst. reflexivity.
Qed.

End PageFacts.

(** ** The claims on concrete runs *)

Section Runs.

Import Js Async GeoScoreTool.

Lemma guarded_call_is_noop_witness :
  (url Sample.emptied = "" /\
   lastCalculatedUrl Sample.emptied = Sample.site /\
   handle Sample.URL_hostname JsString.lower Sample.null_access_message
     (Sample.offline Sample.half)
     {| trace := start Sample.emptied; suspended := [] |} ClickCalculate
   = {| trace := start Sample.emptied; suspended := [] |}) /\
  (isCalculating Sample.in_flight = true /\
   run (Sample.offline Sample.half) (Sample.calculateScore Sample.in_flight)
       (start Sample.in_flight)
   = (start Sample.in_flight, Return tt)) /\
  (url (apply (SetUrl Sample.site) Sample.emptied)
   = lastCalculatedUrl (apply (SetUrl Sample.site) Sample.emptied) /\
   run (Sample.offline Sample.half)
       (Sample.calculateScore (apply (SetUrl Sample.site) Sample.emptied))
       (start (apply (SetUrl Sample.site) Sample.emptied))
   = (start (apply (SetUrl Sample.site) Sample.emptied), Return tt)).
Proof.
  destruct (guarded_call_is_noop Sample.URL_hostname JsString.lower
              Sample.null_access_message (Sample.offline Sample.half)
              {| trace := start Sample.emptied; suspended := [] |}
              (or_introl eq_refl)) as (_ & _ & Hpage & _).
  destruct (guarded_call_is_noop Sample.URL_hostname JsString.lower
              Sample.null_access_message (Sample.offline Sample.half)
              {| trace := start Sample.in_flight; suspended := [] |}
              (or_intror (or_introl eq_refl))) as (_ & _ & _ & _ & Hflight).
  destruct (guarded_call_is_noop Sample.URL_hostname JsString.lower
              Sample.null_access_message (Sample.offline Sample.half)
              {| trace := start (apply (SetUrl Sample.site) Sample.emptied);
                 suspended := [] |}
              (or_intror (or_intror eq_refl))) as (_ & _ & _ & _ & Hsame).
  split; [split; [reflexivity | split; [reflexivity | exact Hpage]]|].
  split; [split; [reflexivity | exact (proj2 (Hflight (or_introl eq_refl)))]|].
  split; [reflexivity | exact (proj2 (Hsame (or_intror eq_refl)))].
Defined.

Lemma second_call_is_noop_witness :
  isCalculating (Sample.typed Sample.site) = false /\
  url (Sample.typed Sample.site) <> lastCalculatedUrl (Sample.typed Sample.site) /\
  advance (Sample.offline Sample.half)
    (Sample.calculateScore Sample.in_flight)
    (fst (advance (Sample.offline Sample.half)
            (Sample.calculateScore (Sample.typed Sample.site))
            (start (Sample.typed Sample.site))))
  = (fst (advance (Sample.offline Sample.half)
            (Sample.calculateScore (Sample.typed Sample.site))
            (start (Sample.typed Sample.site))),
     Finished (Return tt)).
Proof.
  assert (Hidle : isCalculating (Sample.typed Sample.site) = false)
    by reflexivity.
  assert (Hnew : url (Sample.typed Sample.site)
                 <> lastCalculatedUrl (Sample.typed Sample.site))
    by discriminate.
  split; [exact Hidle|]. split; [exact Hnew|].
  exact (proj1 (proj2 (proj2 (proj2 (proj2
    (second_call_is_noop Sample.URL_hostname JsString.lower
       Sample.null_access_message (Sample.offline Sample.half)
       (Sample.typed Sample.site) Hidle Hnew)))))).
Defined.

Lemma error_kept_with_fallback_witness :
  error (component (fst (run Sample.quota_exceeded
                           (Sample.calculateScore (Sample.typed Sample.site))
                           (start (Sample.typed Sample.site)))))
    = "quota exceeded" /\
  member (scoreData (component (fst (run Sample.quota_exceeded
                           (Sample.calculateScore (Sample.typed Sample.site))
                           (start (Sample.typed Sample.site))))))
         "suggestions" = VArr [].
Proof.
  assert (Hne : "quota exceeded" <> "") by discriminate.
  assert (Hnew : url (Sample.typed Sample.site)
                 <> lastCalculatedUrl (Sample.typed Sample.site))
    by discriminate.
  destruct (error_kept_with_fallback Sample.URL_hostname JsString.lower
              Sample.null_access_message Sample.quota_exceeded
              (Sample.typed Sample.site) (start (Sample.typed Sample.site))
              (VStr "example")
              {| ok := false;
                 json := Return (VObj [("detail", VStr "quota exceeded")]);
                 text := Throw (Error "body used") |}
              eq_refl Hnew eq_refl eq_refl eq_refl)
    as (Hdetail & _ & _ & _ & _ & _ & Hsuggestions & _).
  split; [|exact Hsuggestions].
  exact (Hdetail _ _ eq_refl eq_refl Hne).
Defined.

(** C6, as stated, fails for a body that does not parse: the error state
    is the message of the parse error, not a generic message. *)
Lemma unparseable_error_body_shows_parser_message :
  network Sample.empty_error_body 0
    (score_request (VStr "example") Sample.site)
  = Return {| ok := false;
              json := Throw (Error "Unexpected end of JSON input");
              text := Throw (Error "body used") |} /\
  error (component (fst (run Sample.empty_error_body
                           (Sample.calculateScore (Sample.typed Sample.site))
                           (start (Sample.typed Sample.site)))))
    = "Unexpected end of JSON input" /\
  "Unexpected end of JSON input" <> "Failed to calculate score" /\
  "Unexpected end of JSON input"
    <> "An error occurred while calculating the score".
Proof. repeat split; discriminate. Qed.

Lemma resetScore_restores_witness :
  isCalculating (component (start Sample.emptied)) = false /\
  component (fst (run (Sample.offline Sample.half) resetScore
                    (start Sample.emptied))) = initial /\
  exists brand,
    sent (fst (advance (Sample.offline Sample.half)
                 (click_calculate Sample.URL_hostname JsString.lower
                    Sample.null_access_message
                    (apply (SetUrl Sample.site)
                       (component (fst (run (Sample.offline Sample.half)
                                          resetScore (start Sample.emptied))))))
                 (start (apply (SetUrl Sample.site)
                       (component (fst (run (Sample.offline Sample.half)
                                          resetScore (start Sample.emptied))))))))
    = [score_request brand Sample.site].
Proof.
  assert (Hsite : Sample.site <> "") by discriminate.
  destruct (resetScore_restores Sample.URL_hostname JsString.lower
              Sample.null_access_message (Sample.offline Sample.half)
              (start Sample.emptied))
    as (_ & _ & Hinitial & _ & _ & Hafter).
  split; [reflexivity|].
  split; [exact (Hinitial eq_refl)|].
  exact (proj2 (Hafter Sample.site Hsite) eq_refl).
Defined.

(** C8, as stated, fails: a reset while a calculation is in flight leaves
    [isCalculating] set, so the calculation state is not the initial one. *)
Lemma reset_in_flight_stays_in_flight :
  isCalculating Sample.in_flight = true /\
  isCalculating
    (component (fst (run (Sample.offline Sample.half) resetScore
                       (start Sample.in_flight)))) = true /\
  isCalculating initial = false /\
  component (fst (run (Sample.offline Sample.half) resetScore
                    (start Sample.in_flight))) <> initial.
Proof. repeat split. discriminate. Qed.

(** The scenarios of the specification. *)

Example brand_of_mixed_case_url :
  extractBrandName Sample.URL_hostname JsString.lower
    "https://www.Example.com/page" = Return (VStr "example").
Proof. reflexivity. Qed.

Example brand_and_logo_of_plain_text :
  extractBrandName Sample.URL_hostname JsString.lower "not a url"
    = Return (VStr "not a url") /\
  fetchLogo Sample.URL_hostname "not a url" = Return "".
Proof. split; reflexivity. Qed.

(** The bounds 25 and 87 of the fallback total are reached: without
    network and with every draw 0, and with both checks positive and every
    draw the largest double below 1. *)
Example fallback_total_bounds_reached :
  member (scoreData (component (fst (run (Sample.offline Sample.zero)
            (Sample.calculateScore (Sample.typed Sample.site))
            (start (Sample.typed Sample.site)))))) "total" = VNum 25 /\
  member (scoreData (component (fst (run (Sample.rich Sample.almost_one)
            (Sample.calculateScore (Sample.typed Sample.site))
            (start (Sample.typed Sample.site)))))) "total" = VNum 87.
Proof. split; reflexivity. Qed.

(** A successful answer is adopted as it is and no error is shown. *)
Example remote_result_adopted :
  let data :=
    VObj [("brand", VStr "example"); ("total", VNum 71);
          ("history_links",
           VArr [VObj [("url", VStr "https://a.example"); ("title", VStr "A")];
                 VObj [("url", VStr "https://b.example"); ("title", VStr "B")]])] in
  let final :=
    component (fst (run (Sample.scoring true (Return data) Sample.half)
                      (Sample.calculateScore (Sample.typed Sample.site))
                      (start (Sample.typed Sample.site)))) in
  scoreData final = data /\ error final = "" /\ isCalculating final = false /\
  logoUrl final = "https://www.google.com/s2/favicons?sz=128&domain=www.example.com".
Proof. repeat split. Qed.

End Runs.

(** * Further properties *)

(** ** Brand and logo *)

Section MoreIdentityFacts.

Import JsString Js GeoScoreTool StringFacts.

Variable URL_hostname : string -> completion string.
Variable toLowerCase : string -> string.

Local Abbreviation extractBrandName := (extractBrandName URL_hostname toLowerCase).
Local Abbreviation fetchLogo := (fetchLogo URL_hostname).

Lemma before_first_has_none (c : ascii) (s : string) :
  mem c (before_first c s) = false.
Proof.
  induction s as [|a s IH]; simpl; [reflexivity|].
  destruct (Ascii.eqb a c) eqn:E; simpl; [reflexivity|].
  now rewrite E.
Qed.

(** X1: whatever the input, the brand name is a string without a dot. *)
Theorem brand_has_no_dot (input : string) :
  exists brand,
    extractBrandName input = Return (VStr brand) /\ mem "." brand = false.
Proof.
  destruct (URL_hostname input) as [hostname|e] eqn:H.
  - eexists. split; [exact (extractBrandName_parsed _ _ _ _ H)|].
    apply before_first_has_none.
  - exists (before_first "." (toLowerCase input)).
    split; [|apply before_first_has_none].
    unfold GeoScoreTool.extractBrandName. rewrite H. cbn [catch].
    now rewrite index_split.
Qed.

(** X2: the logo URL is the empty string exactly when the input does not
    parse; when it parses, it is the favicon address followed by the whole
    hostname, a leading [www.] included. *)
Theorem logo_empty_iff_unparseable (input : string) :
  (fetchLogo input = Return "" <-> exists e, URL_hostname input = Throw e) /\
  (forall hostname,
      URL_hostname input = Return hostname ->
      fetchLogo input =
        Return ("https://www.google.com/s2/favicons?sz=128&domain=" ++ hostname)).
Proof.
  unfold GeoScoreTool.fetchLogo.
  destruct (URL_hostname input) as [hostname|e]; cbn [catch]; split.
  - split; [discriminate | intros [e H]; discriminate].
  - now intros ? [= ->].
  - split; [now exists e | reflexivity].
  - discriminate.
Qed.

End MoreIdentityFacts.

(** ** More on the life cycle of a calculation *)

Section MoreLifecycleFacts.

Import JsString Js Async GeoScoreTool StringFacts AsyncFacts.

Variable URL_hostname : string -> completion string.
Variable toLowerCase : string -> string.
Variable null_access_message : string -> string.

Local Abbreviation extractBrandName := (extractBrandName URL_hostname toLowerCase).
Local Abbreviation fetchLogo := (fetchLogo URL_hostname).
Local Abbreviation calculateLocalScore :=
  (calculateLocalScore URL_hostname toLowerCase null_access_message).
Local Abbreviation calculateScore :=
  (calculateScore URL_hostname toLowerCase null_access_message).
Local Abbreviation primary_failure := (primary_failure null_access_message).

(** An answer with a success status and a body that parses is no failure
    of the [try] block. *)
Lemma success_is_no_failure (resp : response) (data : value) (err : exn) :
  ok resp = true -> json resp = Return data ->
  ~ primary_failure (Return resp) err.
Proof.
  intros Hok Hjson Hfail.
  inversion Hfail; subst; congruence.
Qed.

(** The trace at the end of the fallback, written out. *)
Lemma fallback_trace (w : World) (u : string) (t : Trace) :
  exists brand logo score,
    extractBrandName u = Return (VStr brand) /\
    fetchLogo u = Return logo /\
    truthy score = true /\
    run w (calculateLocalScore u) t =
      ({| component :=
            {| url := url (component t); scoreData := score; logoUrl := logo;
               isCalculating := isCalculating (component t);
               lastCalculatedUrl := lastCalculatedUrl (component t);
               error := error (component t) |};
          draws := 3 + draws t;
          sent := sent t ++ [wikipedia_request (VStr brand); markup_request u];
          console := console t |},
       Return tt).
Proof.
  destruct (run_calculateLocalScore URL_hostname toLowerCase
              null_access_message w u t)
    as (brand & logo & wiki & schemaScore & Hbrand & Hlogo & _ & _ & _ & _
        & Hrun).
  cbv zeta in Hrun. exists brand, logo. eexists.
  split; [exact Hbrand|]. split; [exact Hlogo|]. split; [|rewrite Hrun].
  2:{ unfold updated, drawn, requested. cbn [component draws sent console apply
        url scoreData logoUrl isCalculating lastCalculatedUrl error].
      rewrite <- app_assoc. reflexivity. }
  reflexivity.
Qed.

(** X3: a call of [calculateScore] always returns normally, so the promise
    of the click handler never rejects; it never changes [url]; it sends
    no request, one, or three, and draws no random number or three. *)
Theorem calculateScore_never_rejects (w : World) (c : State) (t : Trace) :
  let t' := fst (run w (calculateScore c) t) in
  snd (run w (calculateScore c) t) = Return tt /\
  url (component t') = url (component t) /\
  (exists extra,
      sent t' = (sent t ++ extra)%list /\
      (List.length extra = 0 \/ List.length extra = 1
       \/ List.length extra = 3)%nat) /\
  (draws t' = draws t \/ draws t' = (3 + draws t)%nat).
Proof.
  cbv zeta.
  destruct (isCalculating c || String.eqb (url c) (lastCalculatedUrl c))
    eqn:Hguard.
  { unfold GeoScoreTool.calculateScore. rewrite Hguard. cbn [run ret fst snd].
    repeat split; [|now left].
    exists []. now rewrite app_nil_r; auto. }
  apply orb_false_iff in Hguard as [Hidle Hnew].
  apply String.eqb_neq in Hnew.
  destruct (run_calculateScore URL_hostname toLowerCase null_access_message
              w c t Hidle Hnew) as (brand & _ & Hrun).
  cbv zeta in Hrun.
  destruct Hrun as [(resp & data & logo & _ & _ & _ & _ & Hrun)
                   |(err & _ & Hrun)]; rewrite Hrun; cbn [fst snd].
  - repeat split; [|now left].
    eexists [_]. split; [reflexivity | auto].
  - match goal with
    | |- context [run w (calculateLocalScore ?u) ?t0] =>
        destruct (fallback_trace w u t0)
          as (? & ? & ? & _ & _ & _ & Hlocal)
    end.
    rewrite Hlocal. cbn [fst].
    repeat split; [|now right].
    eexists [_; _; _].
    split; [|auto].
    cbn [updated component sent requested logged].
    now rewrite <- app_assoc.
Qed.

(** X4: when the scoring endpoint answers with a success status and a body
    that parses, the body becomes [scoreData] as it is, the logo is that
    of [url], no error is shown, and nothing else happens: one request, no
    random draw, nothing on the console. *)
Theorem remote_success_adopted (w : World) (c : State) (t : Trace)
    (brand : value) (resp : response) (data : value) (logo : string)
    (Hidle : isCalculating c = false)
    (Hnew : url c <> lastCalculatedUrl c)
    (Hbrand : extractBrandName (url c) = Return brand)
    (Hanswer : network w (List.length (sent t)) (score_request brand (url c))
               = Return resp)
    (Hstatus : ok resp = true)
    (Hbody : json resp = Return data)
    (Hlogo : fetchLogo (url c) = Return logo) :
  run w (calculateScore c) t =
    ({| component :=
          {| url := url (component t); scoreData := data; logoUrl := logo;
             isCalculating := false; lastCalculatedUrl := url c;
             error := "" |};
        draws := draws t;
        sent := sent t ++ [score_request brand (url c)];
        console := console t |},
     Return tt).
Proof.
  destruct (run_calculateScore URL_hostname toLowerCase null_access_message
              w c t Hidle Hnew) as (brand' & Hbrand' & Hrun).
  rewrite Hbrand in Hbrand'. injection Hbrand' as ->.
  cbv zeta in Hrun. rewrite Hanswer in Hrun.
  destruct Hrun as [(resp' & data' & logo' & Ha & _ & Hj & Hl & Hrun)
                   |(err & Hfail & _)].
  - injection Ha as <-. rewrite Hbody in Hj. injection Hj as <-.
    rewrite Hlogo in Hl. injection Hl as <-.
    rewrite Hrun. reflexivity.
  - now destruct (success_is_no_failure resp data err Hstatus Hbody).
Qed.

(** X5: after a call that passes the guard, the error state is empty
    exactly when the result came from the scoring endpoint: the request
    was answered with a success status and a body that parses. *)
Theorem error_empty_iff_remote (w : World) (c : State) (t : Trace)
    (brand : value)
    (Hidle : isCalculating c = false)
    (Hnew : url c <> lastCalculatedUrl c)
    (Hbrand : extractBrandName (url c) = Return brand) :
  error (component (fst (run w (calculateScore c) t))) = "" <->
  exists resp data,
    network w (List.length (sent t)) (score_request brand (url c)) = Return resp
    /\ ok resp = true /\ json resp = Return data.
Proof.
  destruct (run_calculateScore URL_hostname toLowerCase null_access_message
              w c t Hidle Hnew) as (brand' & Hbrand' & Hrun).
  rewrite Hbrand in Hbrand'. injection Hbrand' as ->.
  cbv zeta in Hrun.
  destruct Hrun as [(resp & data & logo & Ha & Hok & Hj & _ & Hrun)
                   |(err & Hfail & Hrun)]; rewrite Hrun.
  - split; [now exists resp, data | reflexivity].
  - match goal with
    | |- context [run w (calculateLocalScore ?u) ?t0] =>
        destruct (fallback_trace w u t0)
          as (? & ? & ? & _ & _ & _ & Hlocal)
    end.
    rewrite Hlocal.
    cbn [fst component updated logged requested apply error].
    rewrite shown_message. split.
    + destruct (String.eqb (message err) "") eqn:E; [discriminate|].
      intro H. now apply String.eqb_neq in E.
    + intros (resp & data & Ha & Hok & Hj). rewrite Ha in Hfail.
      now destruct (success_is_no_failure resp data err Hok Hj).
Qed.

(** X6: when the request to the scoring endpoint is rejected, the error is
    written once to the console, its message becomes the error state (the
    generic message when it is empty), and the fallback runs for the same
    [url]: the knowledge base is asked for the brand, then the markup of
    [url] is fetched, and three random numbers are drawn. *)
Theorem rejected_request_falls_back (w : World) (c : State) (t : Trace)
    (brand : string) (e : exn)
    (Hidle : isCalculating c = false)
    (Hnew : url c <> lastCalculatedUrl c)
    (Hbrand : extractBrandName (url c) = Return (VStr brand))
    (Hanswer : network w (List.length (sent t))
                 (score_request (VStr brand) (url c)) = Throw e) :
  let t' := fst (run w (calculateScore c) t) in
  error (component t') =
    (if String.eqb (message e) ""
     then "An error occurred while calculating the score" else message e) /\
  console t' = (console t ++ [e])%list /\
  sent t' = (sent t ++ [ score_request (VStr brand) (url c);
                         wikipedia_request (VStr brand);
                         markup_request (url c) ])%list /\
  draws t' = (3 + draws t)%nat /\
  fetchLogo (url c) = Return (logoUrl (component t')) /\
  truthy (scoreData (component t')) = true /\
  isCalculating (component t') = false.
Proof.
  destruct (run_calculateScore URL_hostname toLowerCase null_access_message
              w c t Hidle Hnew) as (brand' & Hbrand' & Hrun).
  rewrite Hbrand in Hbrand'. injection Hbrand' as <-.
  cbv zeta in Hrun. rewrite Hanswer in Hrun.
  destruct Hrun as [(? & ? & ? & Ha & _)|(err & Hfail & Hrun)];
    [discriminate|].
  inversion Hfail; subst.
  cbv zeta. rewrite Hrun.
  match goal with
  | |- context [run w (calculateLocalScore ?u) ?t0] =>
      destruct (fallback_trace w u t0)
        as (brand' & logo & score & Hbrand' & Hlogo & Hscore & Hlocal)
  end.
  rewrite Hbrand in Hbrand'. injection Hbrand' as <-.
  rewrite Hlocal.
  cbn [fst component updated logged requested apply error console sent draws
       logoUrl scoreData isCalculating].
  rewrite shown_message, <- app_assoc.
  now repeat split.
Qed.

End MoreLifecycleFacts.

(** ** What is rendered *)

Section RenderFacts.

Import JsString Js Async GeoScoreTool Render StringFacts AsyncFacts.

Variable URL_hostname : string -> completion string.
Variable toLowerCase : string -> string.
Variable null_access_message : string -> string.
Variable string_positive : string -> bool.
Variable not_a_function_message : string -> string.

Local Abbreviation extractBrandName := (extractBrandName URL_hostname toLowerCase).
Local Abbreviation calculateLocalScore :=
  (calculateLocalScore URL_hostname toLowerCase null_access_message).
Local Abbreviation calculateScore :=
  (calculateScore URL_hostname toLowerCase null_access_message).
Local Abbreviation handle :=
  (handle URL_hostname toLowerCase null_access_message).
Local Abbreviation browse :=
  (browse URL_hostname toLowerCase null_access_message).
Local Abbreviation greater_than_zero := (greater_than_zero string_positive).
Local Abbreviation suggestions_section :=
  (suggestions_section string_positive not_a_function_message).
Local Abbreviation history_item := (history_item null_access_message).
Local Abbreviation history_section :=
  (history_section null_access_message string_positive not_a_function_message).
Local Abbreviation renderScoreCard :=
  (renderScoreCard URL_hostname null_access_message string_positive
     not_a_function_message).
Local Abbreviation render :=
  (render URL_hostname null_access_message string_positive
     not_a_function_message).

(** The state a failed primary path ends in: the fallback score object,
    with [url] as it was. *)
Lemma fallback_state (w : World) (c : State) (t : Trace) (brand : value) :
  isCalculating c = false -> url c <> lastCalculatedUrl c ->
  extractBrandName (url c) = Return brand ->
  ~ (exists resp data,
        network w (List.length (sent t)) (score_request brand (url c))
          = Return resp /\ ok resp = true /\ json resp = Return data) ->
  exists recall wiki seo platforms,
    scoreData (component (fst (run w (calculateScore c) t))) =
      localScore brand recall wiki seo platforms
        (recall + wiki + seo + platforms) /\
    url (component (fst (run w (calculateScore c) t))) = url (component t).
Proof.
  intros Hidle Hnew Hbrand Hfailed.
  destruct (run_calculateScore URL_hostname toLowerCase null_access_message
              w c t Hidle Hnew) as (brand' & Hbrand' & Hrun).
  rewrite Hbrand in Hbrand'. injection Hbrand' as ->.
  cbv zeta in Hrun.
  destruct Hrun as [(resp & data & logo & Ha & Hok & Hj & _)
                   |(err & _ & Hrun)].
  { destruct Hfailed. now exists resp, data. }
  rewrite Hrun.
  match goal with
  | |- context [run w (calculateLocalScore ?u) ?t0] =>
      destruct (run_calculateLocalScore URL_hostname toLowerCase
                  null_access_message w u t0)
        as (brand'' & ? & wiki & schemaScore & Hbrand'' & _ & _ & _ & _ & _
            & Hlocal)
  end.
  rewrite Hbrand in Hbrand''. injection Hbrand'' as <-.
  cbv zeta in Hlocal. rewrite Hlocal.
  eexists _, wiki, _, _. split; reflexivity.
Qed.

(** X7: when the primary path fails for a [url] that does not parse, the
    fallback still sets a score, and rendering the component then throws
    the error of [new URL(url)]: the fallback card of an unparseable input
    cannot be shown. *)
Theorem fallback_card_of_unparseable_url_throws (w : World) (c : State)
    (t : Trace) (brand : value) (e : exn)
    (Hidle : isCalculating c = false)
    (Hnew : url c <> lastCalculatedUrl c)
    (Hcurrent : url (component t) = url c)
    (Hbrand : extractBrandName (url c) = Return brand)
    (Hfailed : ~ (exists resp data,
                    network w (List.length (sent t))
                      (score_request brand (url c)) = Return resp /\
                    ok resp = true /\ json resp = Return data))
    (Hurl : URL_hostname (url c) = Throw e) :
  renderScoreCard (component (fst (run w (calculateScore c) t))) = Throw e /\
  render (component (fst (run w (calculateScore c) t))) = Throw e.
Proof.
  destruct (fallback_state w c t brand Hidle Hnew Hbrand Hfailed)
    as (recall & wiki & seo & platforms & Hscore & Hsame).
  assert (Hcard : renderScoreCard
                    (component (fst (run w (calculateScore c) t))) = Throw e).
  { unfold Render.renderScoreCard.
    rewrite Hscore, Hsame, Hcurrent, Hurl. reflexivity. }
  split; [exact Hcard|].
  unfold Render.render. now rewrite Hcard.
Qed.

(** X8: when the primary path fails for a [url] that parses, the card of
    the fallback result is rendered: its breakdown has the four rows
    recall, wiki, seo and platforms, in this order, and it has neither a
    suggestions nor a history section. *)
Theorem fallback_card_content (w : World) (c : State) (t : Trace)
    (brand : value) (hostname : string)
    (Hidle : isCalculating c = false)
    (Hnew : url c <> lastCalculatedUrl c)
    (Hcurrent : url (component t) = url c)
    (Hbrand : extractBrandName (url c) = Return brand)
    (Hfailed : ~ (exists resp data,
                    network w (List.length (sent t))
                      (score_request brand (url c)) = Return resp /\
                    ok resp = true /\ json resp = Return data))
    (Hurl : URL_hostname (url c) = Return hostname) :
  let final := component (fst (run w (calculateScore c) t)) in
  exists recall wiki seo platforms,
    renderScoreCard final =
      Return
        (Element "div"
           [ className "mt-6 p-4 bg-white rounded-lg shadow"; ("ref", Ref) ]
           [ card_header final hostname;
             Element "div" [ className "mt-4" ]
               [ Element "h3" [ className "font-semibold mb-2" ]
                   [ Child (VStr "Score Breakdown") ];
                 Element "div" [ className "space-y-2" ]
                   [ Children
                       (map breakdown_row
                          [ ("recall", VNum recall); ("wiki", VNum wiki);
                            ("seo", VNum seo); ("platforms", VNum platforms) ]) ] ];
             Child (VBool false);
             Child (VBool false) ]) /\
    member (scoreData final) "total" = VNum (recall + wiki + seo + platforms).
Proof.
  destruct (fallback_state w c t brand Hidle Hnew Hbrand Hfailed)
    as (recall & wiki & seo & platforms & Hscore & Hsame).
  cbv zeta. exists recall, wiki, seo, platforms.
  unfold Render.renderScoreCard.
  rewrite Hsame, Hcurrent, Hurl.
  generalize (component (fst (run w (calculateScore c) t))) Hscore.
  intros final ->. split; reflexivity.
Qed.

(** X9: with a score on the page, editing the input to a text that does
    not parse as a URL makes the next render throw. *)
Theorem unparseable_edit_with_card_throws (w : World) (pg : Page)
    (v : string) (e : exn)
    (Hscore : truthy (scoreData (component (trace pg))) = true)
    (Hurl : URL_hostname v = Throw e) :
  render (component (trace (handle w pg (Typed v)))) = Throw e.
Proof.
  unfold Render.render, Render.renderScoreCard.
  cbn [GeoScoreTool.handle dispatch onChange set advance ret trace fst
       updated component apply url scoreData].
  now rewrite Hscore, Hurl.
Qed.

Lemma history_item_returns (index : nat) (link : value) :
  Render.not_null link -> exists item, history_item (index, link) = Return item.
Proof.
  intros [Hnull Hundef]. unfold Render.history_item.
  destruct link; try contradiction; cbn [get]; now eexists.
Qed.

Lemma history_items_return (links : list value) (i : nat) :
  Forall Render.not_null links ->
  exists items, map_completion history_item (indexed i links) = Return items.
Proof.
  intro Hall. revert i.
  induction Hall as [|link links Hlink _ IH]; intro i; cbn [indexed].
  - now exists [].
  - cbn [map_completion].
    destruct (history_item_returns i link Hlink) as [item ->].
    destruct (IH (S i)) as [items ->]. now eexists.
Qed.

Lemma history_items_throw (before after : list value) (i : nat) :
  Forall Render.not_null before ->
  map_completion history_item (indexed i (before ++ VNull :: after))
    = Throw (Error (null_access_message "url")).
Proof.
  intro Hall. revert i.
  induction Hall as [|link links Hlink _ IH]; intro i.
  - reflexivity.
  - cbn [app indexed map_completion].
    destruct (history_item_returns i link Hlink) as [item ->].
    now rewrite IH.
Qed.

Lemma falsy_renderable (v : value) :
  truthy v = false -> renderable_value v = true.
Proof. destruct v; simpl; congruence. Qed.

Lemma or_else_renderable (a b : value) :
  renderable_value a = true -> renderable_value b = true ->
  renderable_value (or_else a b) = true.
Proof. unfold or_else. now destruct (truthy a). Qed.

Lemma breakdown_rows_renderable (rows : list (string * value)) :
  Forall (fun entry => renderable_value (snd entry) = true) rows ->
  forallb renderable (map breakdown_row rows) = true.
Proof.
  induction 1 as [|[key value] rows Hvalue _ IH]; [reflexivity|].
  cbn [map forallb]. rewrite IH.
  cbn [breakdown_row renderable forallb renderable_value snd] in *.
  now rewrite Hvalue.
Qed.

Lemma suggestion_items_renderable (items : list value) (i : nat) :
  Forall (fun suggestion => renderable_value suggestion = true) items ->
  forallb renderable (map suggestion_item (indexed i items)) = true.
Proof.
  intro Hall. revert i.
  induction Hall as [|item items Hitem _ IH]; intro i; [reflexivity|].
  cbn [indexed map forallb suggestion_item renderable].
  now rewrite Hitem, IH.
Qed.

Lemma history_items_renderable (links : list value) (i : nat) :
  Forall (fun link => not_null link /\
                      renderable_value (link_text link) = true) links ->
  exists items,
    map_completion history_item (indexed i links) = Return items /\
    forallb renderable items = true.
Proof.
  intro Hall. revert i.
  induction Hall as [|link links [Hlink Htext] _ IH]; intro i.
  - now exists [].
  - cbn [indexed map_completion].
    destruct (IH (S i)) as (items & -> & Hitems).
    destruct Hlink as [Hnull Hundef]. unfold link_text in Htext.
    unfold Render.history_item.
    destruct link; try contradiction; cbn [get member] in *;
      eexists; (split; [reflexivity|]);
      cbn [forallb renderable]; now rewrite Htext, Hitems.
Qed.

(** X10: for a well-shaped score and a [url] that parses, [renderScoreCard]
    and the component return their trees without a throw, and no child of
    these trees is an object, so that React renders them. *)
Theorem well_shaped_card_renders (st : State) (hostname : string)
    (Hscore : truthy (scoreData st) = true)
    (Hurl : URL_hostname (url st) = Return hostname)
    (Hshape : well_shaped (scoreData st)) :
  exists card page,
    renderScoreCard st = Return card /\
    render st = Return page /\
    renderable card = true /\
    renderable page = true.
Proof.
  destruct Hshape as (Hbrand & Htotal & Hbreakdown & Hsuggestions & Hhistory).
  assert (Hs : exists n, suggestions_section (scoreData st) = Return n /\
                         renderable n = true).
  { unfold Render.suggestions_section.
    destruct Hsuggestions as [Hfalsy | (items & -> & Hitems)].
    - rewrite Hfalsy. eexists. split; [reflexivity|].
      now apply falsy_renderable.
    - cbn [truthy]. destruct (greater_than_zero _);
        eexists; (split; [reflexivity|]); [|reflexivity].
      cbn [renderable forallb renderable_value].
      now rewrite (suggestion_items_renderable items 0 Hitems). }
  assert (Hh : exists n, history_section (scoreData st) = Return n /\
                         renderable n = true).
  { unfold Render.history_section.
    destruct Hhistory as [Hfalsy | (links & -> & Hlinks)].
    - rewrite Hfalsy. eexists. split; [reflexivity|].
      now apply falsy_renderable.
    - cbn [truthy]. destruct (greater_than_zero _);
        [|eexists; split; reflexivity].
      destruct (history_items_renderable links 0 Hlinks) as (items & -> & Hitems).
      eexists. split; [reflexivity|].
      cbn [renderable forallb renderable_value]. now rewrite Hitems. }
  assert (Hb : renderable (breakdown_section (scoreData st)) = true).
  { unfold breakdown_section.
    destruct (truthy (member (scoreData st) "breakdown")) eqn:Htruthy.
    - cbn [renderable forallb renderable_value].
      now rewrite (breakdown_rows_renderable _ Hbreakdown).
    - now apply falsy_renderable. }
  assert (Hhead : renderable (card_header st hostname) = true).
  { unfold card_header, logo_image.
    pose proof (or_else_renderable _ (VStr "Your Brand") Hbrand eq_refl) as H1.
    pose proof (or_else_renderable _ (VStr "--") Htotal eq_refl) as H2.
    destruct (truthy (VStr (logoUrl st)));
      cbn [renderable forallb renderable_value]; now rewrite H1, H2. }
  destruct Hs as (suggestions & Hs & Hsr). destruct Hh as (history & Hh & Hhr).
  assert (Hcard : exists card, renderScoreCard st = Return card /\
                               renderable card = true).
  { unfold Render.renderScoreCard. rewrite Hscore, Hurl, Hs, Hh.
    eexists. split; [reflexivity|].
    cbn [negb renderable forallb]. now rewrite Hhead, Hb, Hsr, Hhr. }
  destruct Hcard as (card & Hcard & Hcr). exists card.
  unfold Render.render. rewrite Hcard. eexists.
  split; [reflexivity|]. split; [reflexivity|]. split; [exact Hcr|].
  unfold calculate_button, error_box.
  destruct (truthy (VStr (error st)));
    cbn [renderable forallb renderable_value]; now rewrite Hcr.
Qed.

(** X11: a [null] among the history links makes [renderScoreCard] throw
    the [TypeError] of reading [url] of [null], even though [url] parses
    and the suggestions are well formed. *)
Theorem null_history_link_throws (st : State) (hostname : string)
    (before after : list value)
    (Hscore : truthy (scoreData st) = true)
    (Hurl : URL_hostname (url st) = Return hostname)
    (Hsuggestions :
       truthy (member (scoreData st) "suggestions") = false \/
       exists items, member (scoreData st) "suggestions" = VArr items)
    (Hhistory : member (scoreData st) "history_links"
                = VArr (before ++ VNull :: after))
    (Hbefore : Forall Render.not_null before) :
  renderScoreCard st = Throw (Error (null_access_message "url")).
Proof.
  assert (Hs : exists n, suggestions_section (scoreData st) = Return n).
  { unfold Render.suggestions_section.
    destruct Hsuggestions as [-> | [items ->]]; [now eexists|].
    cbn [truthy]. destruct (greater_than_zero _); now eexists. }
  destruct Hs as [suggestions Hs].
  unfold Render.renderScoreCard, Render.history_section.
  rewrite Hscore, Hurl, Hs, Hhistory.
  cbn [negb truthy length_of Render.greater_than_zero].
  assert (Hlen : (0 <? Z.of_nat (List.length (before ++ VNull :: after))) = true).
  { apply Z.ltb_lt. rewrite length_app. simpl. lia. }
  rewrite Hlen. now rewrite (history_items_throw before after 0 Hbefore).
Qed.

(** X21: suggestions that arrive as a non-empty string instead of an
    array make [renderScoreCard] throw: a string has a positive length and
    no [map]. *)
Theorem string_suggestions_throw (st : State) (hostname text : string)
    (Hscore : truthy (scoreData st) = true)
    (Hurl : URL_hostname (url st) = Return hostname)
    (Hsuggestions : member (scoreData st) "suggestions" = VStr text)
    (Htext : text <> "") :
  renderScoreCard st =
    Throw (Error (not_a_function_message "scoreData.suggestions.map")).
Proof.
  unfold Render.renderScoreCard, Render.suggestions_section.
  rewrite Hscore, Hurl, Hsuggestions.
  assert (Htruthy : truthy (VStr text) = true).
  { simpl. now apply String.eqb_neq in Htext as ->. }
  assert (Hlen : (0 <? Z.of_nat (String.length text)) = true).
  { apply Z.ltb_lt. destruct text; [contradiction | simpl; lia]. }
  rewrite Htruthy. cbn [negb length_of Render.greater_than_zero].
  now rewrite Hlen.
Qed.

Lemma replace_first_character (c : ascii) (rep before after : string) :
  mem c before = false ->
  replace (String c EmptyString) rep (before ++ String c after)
    = before ++ rep ++ after.
Proof.
  induction before as [|a before IH]; intro Hmem; rewrite replace_unfold.
  - simpl. now rewrite Ascii.eqb_refl.
  - simpl in Hmem |- *. apply orb_false_iff in Hmem as [Hac Hmem].
    rewrite Ascii.eqb_sym, Hac. simpl. f_equal. now apply IH.
Qed.

Lemma replace_character_absent (c : ascii) (rep s : string) :
  mem c s = false -> replace (String c EmptyString) rep s = s.
Proof.
  induction s as [|a s IH]; intro Hmem; rewrite replace_unfold; simpl.
  - reflexivity.
  - simpl in Hmem. apply orb_false_iff in Hmem as [Hac Hmem].
    rewrite Ascii.eqb_sym, Hac. simpl. f_equal. now apply IH.
Qed.

(** X12: the label of a breakdown row is the key with its first
    underscore turned into a space; later underscores stay, and a key
    without underscore is shown as it is. *)
Theorem breakdown_label_first_underscore (value : value) :
  (forall before after,
      mem "_" before = false ->
      breakdown_row ((before ++ "_" ++ after)%string, value) =
        Element "div"
          [ ("key", Attr (VStr (before ++ "_" ++ after)));
            className "flex justify-between" ]
          [ Element "span" [ className "capitalize" ]
              [ Child (VStr (before ++ " " ++ after)) ];
            Element "span" [] [ Child value ] ]) /\
  (forall key,
      mem "_" key = false ->
      breakdown_row (key, value) =
        Element "div"
          [ ("key", Attr (VStr key)); className "flex justify-between" ]
          [ Element "span" [ className "capitalize" ] [ Child (VStr key) ];
            Element "span" [] [ Child value ] ]).
Proof.
  split.
  - intros before after Hmem. unfold breakdown_row.
    change ("_" ++ after)%string with (String "_" after).
    now rewrite (replace_first_character "_" " " before after Hmem).
  - intros key Hmem. unfold breakdown_row.
    now rewrite (replace_character_absent "_" " " key Hmem).
Qed.

(** X18: whatever the user does and whatever the world answers, at most
    one call of [calculateScore] is suspended at any time, and one is
    suspended exactly when [isCalculating] is set. *)
Theorem at_most_one_call_in_flight (w : World) (events : list event) :
  let pg := browse w events in
  (List.length (suspended pg) <= 1)%nat /\
  (isCalculating (component (trace pg)) = true <-> suspended pg <> []).
Proof.
  cbv zeta.
  destruct (browse_single_flight URL_hostname toLowerCase null_access_message
              w events) as [[Hnone Hflag]|(p & Hone & Hflag & _)].
  - rewrite Hnone, Hflag. split; [simpl; lia|].
    split; [discriminate | contradiction].
  - rewrite Hone, Hflag. split; [simpl; lia|].
    split; [discriminate | reflexivity].
Qed.

(** X13: whatever the user does and whatever the world answers, the
    Calculate button reads [Calculating...] and is disabled exactly while
    a call of [calculateScore] is suspended; otherwise it reads
    [Calculate Score] and is disabled only for an empty [url]. *)
Theorem button_follows_flight (w : World) (events : list event) :
  let pg := browse w events in
  (suspended pg <> [] ->
   calculate_button (component (trace pg)) =
     Element "button"
       [ ("onClick", Handler OnClickCalculate);
         ("disabled", Attr (VBool true));
         className "px-4 py-2 rounded text-white bg-blue-400" ]
       [ Child (VStr "Calculating...") ]) /\
  (suspended pg = [] ->
   calculate_button (component (trace pg)) =
     Element "button"
       [ ("onClick", Handler OnClickCalculate);
         ("disabled", Attr (VBool (String.eqb (url (component (trace pg))) "")));
         className ("px-4 py-2 rounded text-white "
                    ++ (if String.eqb (url (component (trace pg))) ""
                        then "bg-blue-400"
                        else "bg-blue-600 hover:bg-blue-700")) ]
       [ Child (VStr "Calculate Score") ]).
Proof.
  cbv zeta.
  destruct (browse_single_flight URL_hostname toLowerCase null_access_message
              w events) as [[Hnone Hflag]|(p & Hone & Hflag & _)].
  - split; [now rewrite Hnone|]. intros _.
    unfold calculate_button. rewrite Hflag. cbn [orb truthy].
    now rewrite negb_involutive.
  - split; [|rewrite Hone; discriminate]. intros _.
    unfold calculate_button. now rewrite Hflag.
Qed.

(** X14: a reset does not cancel an outstanding request.  When the
    scoring endpoint answers after the reset, its result is put on the
    page although [url] and the last calculated URL are empty, and, the
    empty string being no URL, the next render throws. *)
Theorem reset_does_not_cancel (w : World) (u : string) (brand : value)
    (resp : response) (data : value) (logo : string) (e : exn)
    (Hu : u <> "")
    (Hbrand : extractBrandName u = Return brand)
    (Hanswer : network w 0 (score_request brand u) = Return resp)
    (Hstatus : ok resp = true)
    (Hbody : json resp = Return data)
    (Hlogo : GeoScoreTool.fetchLogo URL_hostname u = Return logo) :
  let pg :=
    browse w [Typed u; ClickCalculate; ClickReset; Settled 0; Settled 0] in
  suspended pg = [] /\
  component (trace pg) =
    {| url := ""; scoreData := data; logoUrl := logo; isCalculating := false;
       lastCalculatedUrl := ""; error := "" |} /\
  (truthy data = true -> URL_hostname "" = Throw e ->
   render (component (trace pg)) = Throw e).
Proof.
  apply String.eqb_neq in Hu.
  set (c := apply (SetUrl u) initial).
  assert (Htyped : handle w loaded (Typed u) =
                   {| trace := start c; suspended := [] |}) by reflexivity.
  assert (Henabled : calculate_disabled c = false).
  { unfold calculate_disabled. simpl. now rewrite Hu. }
  assert (Hguard : isCalculating c || String.eqb (url c) (lastCalculatedUrl c)
                   = false).
  { simpl. exact Hu. }
  assert (Hpage :
    browse w [Typed u; ClickCalculate; ClickReset; Settled 0; Settled 0] =
      {| trace :=
           {| component :=
                {| url := ""; scoreData := data; logoUrl := logo;
                   isCalculating := false; lastCalculatedUrl := "";
                   error := "" |};
              draws := 0; sent := [score_request brand u]; console := [] |};
         suspended := [] |}).
  { unfold GeoScoreTool.browse. cbn [fold_left]. rewrite Htyped.
    cbn [GeoScoreTool.handle trace component start].
    unfold GeoScoreTool.click_calculate. rewrite Henabled.
    unfold GeoScoreTool.calculateScore. rewrite Hguard.
    unfold GeoScoreTool.calculateScore_try.
    change (url c) with u. rewrite Hbrand.
    cbn -[score_request GeoScoreTool.fetchLogo].
    rewrite Hanswer. cbn -[score_request GeoScoreTool.fetchLogo].
    rewrite Hstatus. cbn -[score_request GeoScoreTool.fetchLogo].
    rewrite Hbody. cbn -[score_request GeoScoreTool.fetchLogo].
    rewrite Hlogo. reflexivity. }
  cbv zeta. rewrite Hpage. cbn [trace suspended component].
  split; [reflexivity|]. split; [reflexivity|].
  intros Htruthy Hempty.
  unfold Render.render, Render.renderScoreCard. cbn [scoreData url].
  now rewrite Htruthy, Hempty.
Qed.

(** X15: a calculation is for the URL that was submitted.  When the user
    edits the input while the request is outstanding and the request is
    then rejected, the fallback asks the knowledge base for the brand of
    the submitted URL and sets its logo, while [url] is the edited text. *)
Theorem edit_in_flight_keeps_submitted_url (w : World) (u v : string)
    (brand : value) (logo : string) (e : exn)
    (Hu : u <> "")
    (Hbrand : extractBrandName u = Return brand)
    (Hlogo : GeoScoreTool.fetchLogo URL_hostname u = Return logo)
    (Hanswer : network w 0 (score_request brand u) = Throw e) :
  let pg := browse w [Typed u; ClickCalculate; Typed v; Settled 0] in
  sent (trace pg) = [score_request brand u; wikipedia_request brand] /\
  url (component (trace pg)) = v /\
  logoUrl (component (trace pg)) = logo /\
  lastCalculatedUrl (component (trace pg)) = u /\
  List.length (suspended pg) = 1%nat.
Proof.
  apply String.eqb_neq in Hu.
  set (c := apply (SetUrl u) initial).
  assert (Htyped : handle w loaded (Typed u) =
                   {| trace := start c; suspended := [] |}) by reflexivity.
  assert (Henabled : calculate_disabled c = false).
  { unfold calculate_disabled. simpl. now rewrite Hu. }
  assert (Hguard : isCalculating c || String.eqb (url c) (lastCalculatedUrl c)
                   = false).
  { simpl. exact Hu. }
  cbv zeta.
  unfold GeoScoreTool.browse. cbn [fold_left]. rewrite Htyped.
  cbn [GeoScoreTool.handle trace component start].
  unfold GeoScoreTool.click_calculate. rewrite Henabled.
  unfold GeoScoreTool.calculateScore. rewrite Hguard.
  unfold GeoScoreTool.calculateScore_try, GeoScoreTool.calculateScore_catch,
    GeoScoreTool.calculateLocalScore.
  change (url c) with u. rewrite Hbrand, Hlogo.
  cbn -[score_request wikipedia_request].
  rewrite Hanswer.
  cbn -[score_request wikipedia_request].
  repeat split.
Qed.

End RenderFacts.

(** ** The random ranges are attained *)

Section RangeFacts.

Import Js Async GeoScoreTool Float FloatFacts Draws.

Lemma round53_lower (x : Z) : 0 <= x -> x - x / 2 ^ 53 <= round53 x.
Proof.
  intro Hx. unfold round53.
  destruct (x <? 2 ^ 53) eqn:Hsmall.
  - assert (0 <= x / 2 ^ 53) by (apply Z.div_pos; lia). lia.
  - apply Z.ltb_ge in Hsmall.
    assert (Hlog : 53 <= Z.log2 x).
    { change 53 with (Z.log2 (2 ^ 53)). now apply Z.log2_le_mono. }
    set (k := Z.log2 x - 52).
    assert (Hk : 1 <= k) by (unfold k; lia).
    assert (Hpow : 2 ^ k = 2 * 2 ^ (k - 1)).
    { replace k with (Z.succ (k - 1)) at 1 by lia. apply Z.pow_succ_r. lia. }
    assert (Hh : 0 < 2 ^ (k - 1)) by (apply Z.pow_pos_nonneg; lia).
    assert (Hhalf : 2 ^ (k - 1) <= x / 2 ^ 53).
    { apply Z.div_le_lower_bound; [lia|].
      rewrite <- Z.pow_add_r by lia.
      replace (53 + (k - 1)) with (Z.log2 x) by (unfold k; lia).
      apply Z.log2_spec. lia. }
    pose proof (Z.div_mod x (2 ^ k) ltac:(lia)) as Hdm.
    pose proof (Z.mod_pos_bound x (2 ^ k) ltac:(lia)) as Hr.
    set (q := x / 2 ^ k) in *. set (r := x mod 2 ^ k) in *.
    set (h := 2 ^ (k - 1)) in *.
    cbv zeta.
    destruct ((h <? r) || ((r =? h) && Z.odd q)) eqn:Hup.
    + nia.
    + apply orb_false_iff in Hup as [Hlt _]. apply Z.ltb_ge in Hlt. nia.
Qed.

(** [Math.floor(Math.random() * n)] takes every value from [0] to
    [n - 1]. *)
Lemma floor_times_onto (n v : Z) :
  1 <= n <= 2 ^ 51 -> 0 <= v < n ->
  valid (middle n v) /\ floor_times (middle n v) n = v.
Proof.
  intros Hn Hv.
  set (a := (2 * v + 1) * 2 ^ 52).
  assert (Ha : 0 <= a) by (unfold a; nia).
  pose proof (Z.div_mod a n ltac:(lia)) as Hdm.
  pose proof (Z.mod_pos_bound a n ltac:(lia)) as Hr.
  assert (Hm0 : 0 <= a / n) by (apply Z.div_pos; lia).
  assert (Hm1 : a / n < 2 ^ 53).
  { apply Z.div_lt_upper_bound; [lia|]. unfold a. nia. }
  split.
  - unfold valid, middle. cbn [mantissa exponent]. fold a. lia.
  - unfold floor_times, middle. cbn [mantissa exponent]. fold a.
    set (x := a / n * n).
    assert (Hx0 : 0 <= x) by (unfold x; nia).
    assert (Hx1 : a - n < x <= a) by (unfold x; nia).
    assert (Hdiv : x / 2 ^ 53 < n).
    { apply Z.div_lt_upper_bound; [lia|]. unfold a in Hx1. nia. }
    pose proof (round53_upper x Hx0) as Hup.
    pose proof (round53_lower x Hx0) as Hlo.
    symmetry. apply (Z.div_unique _ _ _ (round53 x - v * 2 ^ 53)).
    + left. unfold a in Hx1. lia.
    + lia.
Qed.

Variable URL_hostname : string -> completion string.
Variable toLowerCase : string -> string.
Variable null_access_message : string -> string.

Local Abbreviation calculateLocalScore :=
  (calculateLocalScore URL_hostname toLowerCase null_access_message).

(** X16: the ranges of the fallback are attained in full: for every recall
    in 10..34, every seo in 10..19 and every platform draw in 5..9 there
    are three doubles below 1 with which the fallback computes exactly
    these, whatever the network answers. *)
Theorem fallback_ranges_attained (recall seo r : Z)
    (net : nat -> request -> completion response) (u : string) (st : State)
    (Hrecall : 10 <= recall <= 34)
    (Hseo : 10 <= seo <= 19)
    (Hr : 5 <= r <= 9) :
  exists d1 d2 d3,
    valid d1 /\ valid d2 /\ valid d3 /\
    let result :=
      scoreData (component (fst (run (drawing net d1 d2 d3)
                                   (calculateLocalScore u) (start st)))) in
    member (member result "breakdown") "recall" = VNum recall /\
    member (member result "breakdown") "seo" = VNum seo /\
    exists schemaScore,
      (schemaScore = 0 \/ schemaScore = 5) /\
      member (member result "breakdown") "platforms" = VNum (r + schemaScore).
Proof.
  destruct (floor_times_onto 25 (recall - 10)) as [Hv1 Hf1]; [lia | lia |].
  destruct (floor_times_onto 10 (seo - 10)) as [Hv2 Hf2]; [lia | lia |].
  destruct (floor_times_onto 5 (r - 5)) as [Hv3 Hf3]; [lia | lia |].
  exists (middle 25 (recall - 10)), (middle 10 (seo - 10)), (middle 5 (r - 5)).
  repeat (split; [assumption|]).
  destruct (run_calculateLocalScore URL_hostname toLowerCase
              null_access_message
              (drawing net (middle 25 (recall - 10)) (middle 10 (seo - 10))
                 (middle 5 (r - 5)))
              u (start st))
    as (brand & logo & wiki & schemaScore & _ & _ & _ & _ & _ & Hs & Hrun).
  cbv zeta in Hrun |- *. rewrite Hrun.
  cbn [fst component updated apply scoreData start draws drawing entropy].
  rewrite Hf1, Hf2, Hf3.
  cbn [member localScore lookup String.eqb Ascii.eqb Bool.eqb].
  split; [f_equal; lia|]. split; [f_equal; lia|].
  exists schemaScore. split; [exact Hs|]. f_equal. lia.
Qed.

End RangeFacts.

(** ** The development proxy *)

Section ProxyFacts.

Import JsString Js GeoScoreTool ViteConfig StringFacts.

(** X17: the proxy rewrite removes a leading [/api] and nothing else: a
    path [/api] followed by anything becomes that anything, a path that
    does not start with [/api] is unchanged, and the request of the
    component goes to [/check-score]; the target is the configured URL,
    or the local server when none, or an empty one, is configured. *)
Theorem proxy_rewrite_strips_prefix :
  (forall rest, proxy_rewrite ("/api" ++ rest) = rest) /\
  (forall path, startsWith "/api" path = false -> proxy_rewrite path = path) /\
  (forall path, "/api" ++ proxy_rewrite ("/api" ++ path) = "/api" ++ path) /\
  (forall brand u, proxy_rewrite (target (score_request brand u)) = "/check-score") /\
  (forall configured, configured <> "" ->
      proxy_target (VStr configured) = VStr configured) /\
  proxy_target (VStr "") = VStr "http://localhost:8000" /\
  proxy_target VUndefined = VStr "http://localhost:8000".
Proof.
  repeat split.
  - intros path H. unfold proxy_rewrite. now rewrite H.
  - intros configured H. apply String.eqb_neq in H.
    unfold proxy_target, or_else. simpl. now rewrite H.
Qed.

End ProxyFacts.

(** ** The further properties on concrete runs *)

Section MoreRuns.

Import Js Async GeoScoreTool Render.

Lemma site_is_new : url (Sample.typed Sample.site)
                    <> lastCalculatedUrl (Sample.typed Sample.site).
Proof. discriminate. Qed.

Lemma extractBrandName_refines_spec_witness :
  extractBrandName Sample.URL_hostname JsString.lower
    "https://www.example.com/page" = Return (VStr "example").
Proof.
  exact (extractBrandName_refines_spec Sample.URL_hostname JsString.lower
           "https://www.example.com/page" "www.example.com"
           eq_refl (or_introl eq_refl)).
Defined.

Lemma logo_empty_iff_unparseable_witness :
  fetchLogo Sample.URL_hostname "not a url" = Return "" /\
  fetchLogo Sample.URL_hostname Sample.site
    = Return "https://www.google.com/s2/favicons?sz=128&domain=www.example.com".
Proof.
  split.
  - apply (proj1 (logo_empty_iff_unparseable Sample.URL_hostname "not a url")).
    now exists (Error "Invalid URL").
  - exact (proj2 (logo_empty_iff_unparseable Sample.URL_hostname Sample.site)
             "www.example.com" eq_refl).
Defined.

Lemma remote_success_adopted_witness :
  scoreData
    (component
       (fst (run (Sample.scoring true (Return SampleView.remote_result)
                    Sample.half)
               (Sample.calculateScore (Sample.typed Sample.site))
               (start (Sample.typed Sample.site)))))
  = SampleView.remote_result.
Proof.
  exact (f_equal (fun r => scoreData (component (fst r)))
    (remote_success_adopted Sample.URL_hostname JsString.lower
       Sample.null_access_message
       (Sample.scoring true (Return SampleView.remote_result) Sample.half)
       (Sample.typed Sample.site) (start (Sample.typed Sample.site))
       (VStr "example")
       {| ok := true; json := Return SampleView.remote_result;
          text := Throw (Error "body used") |}
       SampleView.remote_result
       "https://www.google.com/s2/favicons?sz=128&domain=www.example.com"
       eq_refl site_is_new eq_refl eq_refl eq_refl eq_refl eq_refl)).
Defined.

Lemma error_empty_iff_remote_witness :
  error
    (component
       (fst (run (Sample.scoring true (Return SampleView.remote_result)
                    Sample.half)
               (Sample.calculateScore (Sample.typed Sample.site))
               (start (Sample.typed Sample.site)))))
  = "".
Proof.
  apply (proj2 (error_empty_iff_remote Sample.URL_hostname JsString.lower
                  Sample.null_access_message
                  (Sample.scoring true (Return SampleView.remote_result)
                     Sample.half)
                  (Sample.typed Sample.site) (start (Sample.typed Sample.site))
                  (VStr "example") eq_refl site_is_new eq_refl)).
  eexists _, _. repeat split.
Defined.

Lemma rejected_request_falls_back_witness :
  error
    (component
       (fst (run (Sample.offline Sample.half)
               (Sample.calculateScore (Sample.typed Sample.site))
               (start (Sample.typed Sample.site)))))
  = "Failed to fetch".
Proof.
  exact (proj1 (rejected_request_falls_back Sample.URL_hostname JsString.lower
                  Sample.null_access_message (Sample.offline Sample.half)
                  (Sample.typed Sample.site) (start (Sample.typed Sample.site))
                  "example" (Error "Failed to fetch")
                  eq_refl site_is_new eq_refl eq_refl)).
Defined.

Lemma plain_text_is_new : url (Sample.typed "not a url")
                          <> lastCalculatedUrl (Sample.typed "not a url").
Proof. discriminate. Qed.

Lemma offline_never_succeeds (n : nat) (r : request) :
  ~ (exists resp data,
        network (Sample.offline Sample.half) n r = Return resp /\
        ok resp = true /\ json resp = Return data).
Proof. intros (? & ? & H & _). discriminate. Qed.

Lemma fallback_card_of_unparseable_url_throws_witness :
  SampleView.render
    (component
       (fst (run (Sample.offline Sample.half)
               (Sample.calculateScore (Sample.typed "not a url"))
               (start (Sample.typed "not a url")))))
  = Throw (Error "Invalid URL").
Proof.
  exact (proj2 (fallback_card_of_unparseable_url_throws
                  Sample.URL_hostname JsString.lower
                  Sample.null_access_message SampleView.string_positive
                  SampleView.not_a_function_message
                  (Sample.offline Sample.half)
                  (Sample.typed "not a url") (start (Sample.typed "not a url"))
                  (VStr "not a url") (Error "Invalid URL")
                  eq_refl plain_text_is_new eq_refl eq_refl
                  (offline_never_succeeds _ _) eq_refl)).
Defined.

Lemma fallback_card_content_witness :
  exists card,
    SampleView.renderScoreCard
      (component
         (fst (run (Sample.offline Sample.half)
                 (Sample.calculateScore (Sample.typed Sample.site))
                 (start (Sample.typed Sample.site)))))
    = Return card /\
  member
    (scoreData
       (component
          (fst (run (Sample.offline Sample.half)
                  (Sample.calculateScore (Sample.typed Sample.site))
                  (start (Sample.typed Sample.site))))))
    "total" = VNum 44.
Proof.
  destruct (fallback_card_content
              Sample.URL_hostname JsString.lower
              Sample.null_access_message SampleView.string_positive
              SampleView.not_a_function_message
              (Sample.offline Sample.half)
              (Sample.typed Sample.site) (start (Sample.typed Sample.site))
              (VStr "example") "www.example.com"
              eq_refl site_is_new eq_refl eq_refl
              (offline_never_succeeds _ _) eq_refl)
    as (recall & wiki & seo & platforms & Hcard & Htotal).
  eexists. split; [exact Hcard | reflexivity].
Defined.

Lemma unparseable_edit_with_card_throws_witness :
  SampleView.render
    (component
       (trace (handle Sample.URL_hostname JsString.lower
                 Sample.null_access_message (Sample.offline Sample.half)
                 {| trace := start (SampleView.scored SampleView.remote_result);
                    suspended := [] |}
                 (Typed "https:/"))))
  = Throw (Error "Invalid URL").
Proof.
  exact (unparseable_edit_with_card_throws
           Sample.URL_hostname JsString.lower
           Sample.null_access_message SampleView.string_positive
           SampleView.not_a_function_message
           (Sample.offline Sample.half)
           {| trace := start (SampleView.scored SampleView.remote_result);
              suspended := [] |}
           "https:/" (Error "Invalid URL") eq_refl eq_refl).
Defined.

Lemma remote_links_not_null :
  Forall not_null
    [ VObj [ ("url", VStr "https://a.example"); ("title", VStr "A") ];
      VObj [ ("url", VStr "https://b.example") ] ].
Proof. repeat constructor; discriminate. Qed.

Lemma remote_result_well_shaped : well_shaped SampleView.remote_result.
Proof.
  unfold well_shaped. split; [reflexivity|]. split; [reflexivity|].
  split; [repeat constructor|].
  split; right; eexists; (split; [reflexivity|]).
  - repeat constructor.
  - repeat constructor; discriminate.
Qed.

Lemma well_shaped_card_renders_witness :
  exists card page,
    SampleView.renderScoreCard (SampleView.scored SampleView.remote_result)
      = Return card /\
    SampleView.render (SampleView.scored SampleView.remote_result)
      = Return page /\
    renderable card = true /\
    renderable page = true.
Proof.
  exact (well_shaped_card_renders
           Sample.URL_hostname Sample.null_access_message
           SampleView.string_positive SampleView.not_a_function_message
           (SampleView.scored SampleView.remote_result) "www.example.com"
           eq_refl eq_refl remote_result_well_shaped).
Defined.

Lemma null_history_link_throws_witness :
  SampleView.renderScoreCard
    (SampleView.scored
       (VObj [ ("total", VNum 5);
               ("history_links",
                VArr [ VObj [ ("url", VStr "https://a.example") ]; VNull ]) ]))
  = Throw (Error "Cannot read properties of null (reading 'url')").
Proof.
  apply (null_history_link_throws
           Sample.URL_hostname Sample.null_access_message
           SampleView.string_positive SampleView.not_a_function_message
           (SampleView.scored
              (VObj [ ("total", VNum 5);
                      ("history_links",
                       VArr [ VObj [ ("url", VStr "https://a.example") ];
                              VNull ]) ]))
           "www.example.com"
           [ VObj [ ("url", VStr "https://a.example") ] ] []
           eq_refl eq_refl (or_introl eq_refl) eq_refl).
  repeat constructor; discriminate.
Defined.

Lemma string_suggestions_throw_witness :
  SampleView.renderScoreCard
    (SampleView.scored
       (VObj [ ("total", VNum 5); ("suggestions", VStr "Add structured data") ]))
  = Throw (Error "scoreData.suggestions.map is not a function").
Proof.
  apply (string_suggestions_throw
           Sample.URL_hostname Sample.null_access_message
           SampleView.string_positive SampleView.not_a_function_message
           (SampleView.scored
              (VObj [ ("total", VNum 5);
                      ("suggestions", VStr "Add structured data") ]))
           "www.example.com" "Add structured data" eq_refl eq_refl eq_refl).
  discriminate.
Defined.

Lemma breakdown_label_first_underscore_witness :
  breakdown_row ("brand_mention_rate", VNum 41) =
    Element "div"
      [ ("key", Attr (VStr "brand_mention_rate"));
        className "flex justify-between" ]
      [ Element "span" [ className "capitalize" ]
          [ Child (VStr "brand mention_rate") ];
        Element "span" [] [ Child (VNum 41) ] ].
Proof.
  exact (proj1 (breakdown_label_first_underscore (VNum 41))
           "brand" "mention_rate" eq_refl).
Defined.

Lemma button_follows_flight_witness :
  calculate_button
    (component
       (trace (browse Sample.URL_hostname JsString.lower
                 Sample.null_access_message (Sample.offline Sample.half)
                 [Typed Sample.site; ClickCalculate]))) =
    Element "button"
      [ ("onClick", Handler OnClickCalculate);
        ("disabled", Attr (VBool true));
        className "px-4 py-2 rounded text-white bg-blue-400" ]
      [ Child (VStr "Calculating...") ].
Proof.
  apply (proj1 (button_follows_flight Sample.URL_hostname JsString.lower
                  Sample.null_access_message (Sample.offline Sample.half)
                  [Typed Sample.site; ClickCalculate])).
  discriminate.
Defined.

Lemma site_not_empty : Sample.site <> "".
Proof. discriminate. Qed.

Lemma reset_does_not_cancel_witness :
  SampleView.render
    (component
       (trace (browse Sample.URL_hostname JsString.lower
                 Sample.null_access_message
                 (Sample.scoring true (Return SampleView.remote_result)
                    Sample.half)
                 [Typed Sample.site; ClickCalculate; ClickReset;
                  Settled 0; Settled 0])))
  = Throw (Error "Invalid URL").
Proof.
  exact (proj2 (proj2
           (reset_does_not_cancel
              Sample.URL_hostname JsString.lower
              Sample.null_access_message SampleView.string_positive
              SampleView.not_a_function_message
              (Sample.scoring true (Return SampleView.remote_result) Sample.half)
              Sample.site (VStr "example")
              {| ok := true; json := Return SampleView.remote_result;
                 text := Throw (Error "body used") |}
              SampleView.remote_result
              "https://www.google.com/s2/favicons?sz=128&domain=www.example.com"
              (Error "Invalid URL")
              site_not_empty eq_refl eq_refl eq_refl eq_refl eq_refl))
           eq_refl eq_refl).
Defined.

Lemma edit_in_flight_keeps_submitted_url_witness :
  sent
    (trace (browse Sample.URL_hostname JsString.lower
              Sample.null_access_message (Sample.offline Sample.half)
              [Typed Sample.site; ClickCalculate;
               Typed "https://other.example"; Settled 0]))
  = [ score_request (VStr "example") Sample.site;
      wikipedia_request (VStr "example") ].
Proof.
  exact (proj1
           (edit_in_flight_keeps_submitted_url
              Sample.URL_hostname JsString.lower Sample.null_access_message
              (Sample.offline Sample.half)
              Sample.site "https://other.example" (VStr "example")
              "https://www.google.com/s2/favicons?sz=128&domain=www.example.com"
              (Error "Failed to fetch")
              site_not_empty eq_refl eq_refl eq_refl)).
Defined.

Lemma fallback_ranges_attained_witness :
  exists d1 d2 d3,
    Float.valid d1 /\ Float.valid d2 /\ Float.valid d3 /\
    member
      (member
         (scoreData
            (component
               (fst (run (Draws.drawing (network (Sample.offline Sample.half))
                            d1 d2 d3)
                       (calculateLocalScore Sample.URL_hostname JsString.lower
                          Sample.null_access_message Sample.site)
                       (start (Sample.typed Sample.site))))))
         "breakdown") "recall" = VNum 34.
Proof.
  destruct (fallback_ranges_attained
              Sample.URL_hostname JsString.lower Sample.null_access_message
              34 19 9 (network (Sample.offline Sample.half))
              Sample.site (Sample.typed Sample.site)
              ltac:(lia) ltac:(lia) ltac:(lia))
    as (d1 & d2 & d3 & H1 & H2 & H3 & Hrecall & _).
  exists d1, d2, d3.
  split; [exact H1|]. split; [exact H2|]. split; [exact H3|].
  exact Hrecall.
Defined.

Lemma proxy_rewrite_strips_prefix_witness :
  ViteConfig.proxy_rewrite "/x/api" = "/x/api" /\
  ViteConfig.proxy_target (VStr "https://api.geoscore.example")
    = VStr "https://api.geoscore.example".
Proof.
  destruct proxy_rewrite_strips_prefix
    as (_ & Hother & _ & _ & Htarget & _).
  split; [exact (Hother "/x/api" eq_refl)|].
  apply Htarget. discriminate.
Defined.

Lemma double_click_submits_once_witness :
  browse Sample.URL_hostname JsString.lower Sample.null_access_message
    (Sample.offline Sample.half)
    [Typed Sample.site; ClickCalculate; ClickCalculate]
  = browse Sample.URL_hostname JsString.lower Sample.null_access_message
      (Sample.offline Sample.half) [Typed Sample.site; ClickCalculate].
Proof.
  exact (proj1 (double_click_submits_once
                  Sample.URL_hostname JsString.lower
                  Sample.null_access_message (Sample.offline Sample.half)
                  Sample.site site_not_empty)).
Defined.

End MoreRuns.
